(** * rabbitmq-worker: the [message] package

    A shallow embedding of [message/message.go]: the parser that turns a
    RabbitMQ delivery into an [HttpRequestMessage], the extraction of the
    retry history from the [x-death] header, and the HTTP dispatch with its
    drop / retry classification.

    Conventions of the embedding.
    - Go integers ([int], [int64]) are [Z]; the target platform is 64 bit, so
      the conversion [int(x)] of an [int64] is the identity.  The only
      arithmetic that can overflow is the timeout computation of [HttpPost],
      whose wrap-around is written out.
    - Go strings are [string], byte slices are [list byte].
    - [map[string]T] is [gmap string T]; a nil map that is only read behaves
      as the empty map, and where the source tests a map against nil the
      model uses [option].
    - The interface values stored in an [amqp.Table] are the inductive type
      [amqp.value]; an unchecked type assertion [v.(T)] panics when the
      dynamic type differs, a checked one ([x, ok := v.(T)]) reports it.
    - A pointer receiver is modelled by state passing (the message before,
      the message after); a value receiver is a plain argument.
    - No map or slice reachable from a message is written after its
      creation (the only map written is the one [Parse] has just made), so
      maps are values and no heap is needed.
    - What the Go libraries compute ([json.Unmarshal], [http.NewRequest],
      [http.Client.Do], the reading of the response body) is a parameter;
      [crypto/md5] and the [fmt] verbs used are implemented. *)

From Stdlib Require Import ZArith List String Ascii DecimalString.
From Stdlib Require DecimalPos DecimalZ.
From Stdlib.Strings Require Import Byte.
From stdpp Require Import base gmap strings list fin_maps.

Local Open Scope Z_scope.

(** ** Package [errors] *)

Module errors.

(** A Go [error] value, identified with the text its [Error()] method returns. *)
Record error : Type := New { Error : string }.

#[global] Instance error_eq_dec : EqDecision error.
Proof. solve_decision. Defined.

End errors.

(** ** Package [time] *)

Module time.

(** Seconds from January 1, year 1 (the origin of [time.Time]) to the Unix epoch. *)
Definition unixToInternal : Z := 62135596800.

(** [time.Time], reduced to its seconds since year 1 and its nanoseconds. *)
Record Time : Type := mkTime { abs_sec : Z; nsec : Z }.

#[global] Instance Time_eq_dec : EqDecision Time.
Proof. solve_decision. Defined.

(** [t.IsZero()]: the instant is January 1, year 1, 00:00:00 UTC. *)
Definition IsZero (t : Time) : bool := (abs_sec t =? 0) && (nsec t =? 0).

(** [t.Unix()] *)
Definition Unix (t : Time) : Z := abs_sec t - unixToInternal.

(** [time.Unix(sec, nsec)] for [0 <= nsec < 1e9] *)
Definition FromUnix (sec ns : Z) : Time := mkTime (sec + unixToInternal) ns.

(** The zero value of [time.Time]. *)
Definition zero : Time := mkTime 0 0.

(** [time.Duration] is an [int64] count of nanoseconds. *)
Definition wrap64 (x : Z) : Z := (x + 2 ^ 63) mod 2 ^ 64 - 2 ^ 63.
Definition Second : Z := 1000000000.

(** [time.Duration(n) * time.Second] *)
Definition Seconds (n : Z) : Z := wrap64 (n * Second).

End time.

(** ** Package [amqp] *)

Module amqp.

(** The dynamic values of an [amqp.Table] entry ([interface{}]). *)
#[warnings="-register-all"]
Inductive value : Type :=
| VNil
| VBool (b : bool)
| VInt32 (n : Z)
| VInt64 (n : Z)
| VString (s : string)
| VBytes (bs : list byte)
| VTime (t : time.Time)
| VList (l : list value)
| VTable (t : gmap string value).

(** [amqp.Table] is [map[string]interface{}]. *)
Abbreviation Table := (gmap string value).

(** [amqp.Delivery]: the properties of a delivery and its body. *)
Record Delivery : Type := mkDelivery {
  Headers : option Table;
  ContentType : string;
  MessageId : string;
  Timestamp : time.Time;
  Expiration : string;
  DeliveryTag : Z;
  Redelivered : bool;
  Exchange : string;
  RoutingKey : string;
  Body : list byte
}.

End amqp.

(** ** Package [crypto/md5] (RFC 1321) *)

Module md5.

Definition add32 (x y : Z) : Z := (x + y) mod 2 ^ 32.
Definition not32 (x : Z) : Z := Z.lxor x 0xffffffff.
Definition rotl32 (x n : Z) : Z :=
  Z.lor (Z.shiftl x n mod 2 ^ 32) (Z.shiftr x (32 - n)).

Definition shifts : list Z :=
  [ 7; 12; 17; 22; 7; 12; 17; 22; 7; 12; 17; 22; 7; 12; 17; 22;
    5; 9; 14; 20; 5; 9; 14; 20; 5; 9; 14; 20; 5; 9; 14; 20;
    4; 11; 16; 23; 4; 11; 16; 23; 4; 11; 16; 23; 4; 11; 16; 23;
    6; 10; 15; 21; 6; 10; 15; 21; 6; 10; 15; 21; 6; 10; 15; 21 ].

(** [table[i] = floor(2^32 * |sin(i + 1)|)] *)
Definition table : list Z :=
  [ 0xd76aa478; 0xe8c7b756; 0x242070db; 0xc1bdceee;
    0xf57c0faf; 0x4787c62a; 0xa8304613; 0xfd469501;
    0x698098d8; 0x8b44f7af; 0xffff5bb1; 0x895cd7be;
    0x6b901122; 0xfd987193; 0xa679438e; 0x49b40821;
    0xf61e2562; 0xc040b340; 0x265e5a51; 0xe9b6c7aa;
    0xd62f105d; 0x02441453; 0xd8a1e681; 0xe7d3fbc8;
    0x21e1cde6; 0xc33707d6; 0xf4d50d87; 0x455a14ed;
    0xa9e3e905; 0xfcefa3f8; 0x676f02d9; 0x8d2a4c8a;
    0xfffa3942; 0x8771f681; 0x6d9d6122; 0xfde5380c;
    0xa4beea44; 0x4bdecfa9; 0xf6bb4b60; 0xbebfbc70;
    0x289b7ec6; 0xeaa127fa; 0xd4ef3085; 0x04881d05;
    0xd9d4d039; 0xe6db99e5; 0x1fa27cf8; 0xc4ac5665;
    0xf4292244; 0x432aff97; 0xab9423a7; 0xfc93a039;
    0x655b59c3; 0x8f0ccc92; 0xffeff47d; 0x85845dd1;
    0x6fa87e4f; 0xfe2ce6e0; 0xa3014314; 0x4e0811a1;
    0xf7537e82; 0xbd3af235; 0x2ad7d2bb; 0xeb86d391 ].

Definition byte_of_Z (z : Z) : byte :=
  match Byte.of_N (Z.to_N (z mod 256)) with
  | Some b => b
  | None => x00
  end.

Definition Z_of_byte (b : byte) : Z := Z.of_N (Byte.to_N b).

(** Little-endian encodings. *)
Definition le32 (w : Z) : list byte :=
  [ byte_of_Z w; byte_of_Z (Z.shiftr w 8);
    byte_of_Z (Z.shiftr w 16); byte_of_Z (Z.shiftr w 24) ].

Definition le64 (w : Z) : list byte :=
  le32 (w mod 2 ^ 32) ++ le32 (Z.shiftr w 32 mod 2 ^ 32).

Fixpoint words (bs : list byte) : list Z :=
  match bs with
  | b0 :: b1 :: b2 :: b3 :: rest =>
      (Z_of_byte b0 + Z.shiftl (Z_of_byte b1) 8
       + Z.shiftl (Z_of_byte b2) 16 + Z.shiftl (Z_of_byte b3) 24)
      :: words rest
  | _ => []
  end.

(** The message followed by a 1 bit, zeros up to 56 modulo 64 bytes and the
    bit length on 64 bits. *)
Definition pad (data : list byte) : list byte :=
  let n := Z.of_nat (length data) in
  data ++ [x80] ++ repeat x00 (Z.to_nat ((55 - n) mod 64))
       ++ le64 ((8 * n) mod 2 ^ 64).

Fixpoint blocks (k : nat) (ws : list Z) : list (list Z) :=
  match k with
  | O => []
  | S k' => take 16 ws :: blocks k' (drop 16 ws)
  end.

Definition digest : Type := (Z * Z * Z * Z)%type.

Definition init : digest := (0x67452301, 0xefcdab89, 0x98badcfe, 0x10325476).

Definition step (M : list Z) (st : digest) (i : nat) : digest :=
  let '(a, b, c, d) := st in
  let '(f, g) :=
    if (i <? 16)%nat then
      (Z.lor (Z.land b c) (Z.land (not32 b) d), i)
    else if (i <? 32)%nat then
      (Z.lor (Z.land d b) (Z.land (not32 d) c), ((5 * i + 1) mod 16)%nat)
    else if (i <? 48)%nat then
      (Z.lxor (Z.lxor b c) d, ((3 * i + 5) mod 16)%nat)
    else
      (Z.lxor c (Z.lor b (not32 d)), ((7 * i) mod 16)%nat) in
  let f' := add32 (add32 (add32 f a) (nth i table 0)) (nth g M 0) in
  (d, add32 b (rotl32 f' (nth i shifts 0)), b, c).

Definition block (st : digest) (M : list Z) : digest :=
  let '(a0, b0, c0, d0) := st in
  let '(a, b, c, d) := fold_left (step M) (seq 0 64) st in
  (add32 a0 a, add32 b0 b, add32 c0 c, add32 d0 d).

(** [md5.Sum(data)]: the 16 bytes of the checksum. *)
Definition Sum (data : list byte) : list byte :=
  let ws := words (pad data) in
  let '(a, b, c, d) := fold_left block (blocks (length ws / 16) ws) init in
  le32 a ++ le32 b ++ le32 c ++ le32 d.

End md5.

(** ** Package [fmt]: the two verbs the parser uses *)

Module fmt.

Definition hexdigit (n : Z) : ascii :=
  nth (Z.to_nat n)
    [ "0"; "1"; "2"; "3"; "4"; "5"; "6"; "7";
      "8"; "9"; "a"; "b"; "c"; "d"; "e"; "f" ]%char "0"%char.

(** [fmt.Sprintf("%x", bs)] for a byte array: two lower-case digits a byte. *)
Fixpoint hex (bs : list byte) : string :=
  match bs with
  | [] => EmptyString
  | b :: rest =>
      String (hexdigit (md5.Z_of_byte b / 16))
        (String (hexdigit (md5.Z_of_byte b mod 16)) (hex rest))
  end.

(** [fmt.Sprintf("%d", n)] *)
Definition decimal (n : Z) : string := NilZero.string_of_int (Z.to_int n).

End fmt.

(** ** Package [net/http], as far as [HttpPost] uses it *)

Module http.

(** What a library call returns: a value or an error. *)
Inductive result (A : Type) : Type :=
| Ok (a : A)
| Err (e : errors.error).
Arguments Ok {A} a.
Arguments Err {A} e.

(** [http.Header] is [map[string][]string]. *)
Record Request : Type := mkRequest {
  Method : string;
  URL : string;
  Payload : string;
  Header : gmap string (list string)
}.

(** A response: its status line, its status code, and what reading its body
    to the end ([ioutil.ReadAll(resp.Body)]) gives. *)
Record Response : Type := mkResponse {
  Status : string;
  StatusCode : Z;
  ReadAll : result string
}.

(** [http.Client], with its timeout in nanoseconds. *)
Record Client : Type := mkClient { Timeout : Z }.

(** The library and the network behind it. *)
Record Stack : Type := mkStack {
  NewRequest : string -> string -> string -> result Request;
  CanonicalHeaderKey : string -> string;
  Do : Client -> Request -> result Response
}.

(** [req.Header.Set(key, value)] *)
Definition Header_Set (net : Stack) (key val : string) (req : Request)
  : Request :=
  mkRequest (Method req) (URL req) (Payload req)
    (<[CanonicalHeaderKey net key := [val]]> (Header req)).

End http.

(** ** Package [message] *)

(** [HttpRequestMessage] holds all info and status for a RabbitMQ message and
    its associated http request. *)
Record HttpRequestMessage : Type := mkHttpRequestMessage {
  Delivery : amqp.Delivery;
  MessageId : string;
  Url : string;
  Headers : gmap string string;
  Body : string;
  Timestamp : Z;
  Expiration : Z;
  RetryCnt : Z;
  FirstRejectionTime : Z;
  HttpStatusMsg : string;
  HttpRespBody : string;
  HttpErr : option errors.error;
  Drop : bool
}.

(** The zero value of [amqp.Delivery] and of [HttpRequestMessage]. *)
Definition zeroDelivery : amqp.Delivery :=
  amqp.mkDelivery None EmptyString EmptyString time.zero EmptyString 0 false
    EmptyString EmptyString [].

Definition zeroMessage : HttpRequestMessage :=
  mkHttpRequestMessage zeroDelivery EmptyString EmptyString ∅ EmptyString
    0 0 0 0 EmptyString EmptyString None false.

(** Field assignments [msg.F = x]. *)
Definition set_Delivery (x : amqp.Delivery) (m : HttpRequestMessage) :=
  mkHttpRequestMessage x (MessageId m) (Url m) (Headers m) (Body m)
    (Timestamp m) (Expiration m) (RetryCnt m) (FirstRejectionTime m)
    (HttpStatusMsg m) (HttpRespBody m) (HttpErr m) (Drop m).
Definition set_MessageId (x : string) (m : HttpRequestMessage) :=
  mkHttpRequestMessage (Delivery m) x (Url m) (Headers m) (Body m)
    (Timestamp m) (Expiration m) (RetryCnt m) (FirstRejectionTime m)
    (HttpStatusMsg m) (HttpRespBody m) (HttpErr m) (Drop m).
Definition set_Url (x : string) (m : HttpRequestMessage) :=
  mkHttpRequestMessage (Delivery m) (MessageId m) x (Headers m) (Body m)
    (Timestamp m) (Expiration m) (RetryCnt m) (FirstRejectionTime m)
    (HttpStatusMsg m) (HttpRespBody m) (HttpErr m) (Drop m).
Definition set_Headers (x : gmap string string) (m : HttpRequestMessage) :=
  mkHttpRequestMessage (Delivery m) (MessageId m) (Url m) x (Body m)
    (Timestamp m) (Expiration m) (RetryCnt m) (FirstRejectionTime m)
    (HttpStatusMsg m) (HttpRespBody m) (HttpErr m) (Drop m).
Definition set_Body (x : string) (m : HttpRequestMessage) :=
  mkHttpRequestMessage (Delivery m) (MessageId m) (Url m) (Headers m) x
    (Timestamp m) (Expiration m) (RetryCnt m) (FirstRejectionTime m)
    (HttpStatusMsg m) (HttpRespBody m) (HttpErr m) (Drop m).
Definition set_Timestamp (x : Z) (m : HttpRequestMessage) :=
  mkHttpRequestMessage (Delivery m) (MessageId m) (Url m) (Headers m) (Body m)
    x (Expiration m) (RetryCnt m) (FirstRejectionTime m)
    (HttpStatusMsg m) (HttpRespBody m) (HttpErr m) (Drop m).
Definition set_Expiration (x : Z) (m : HttpRequestMessage) :=
  mkHttpRequestMessage (Delivery m) (MessageId m) (Url m) (Headers m) (Body m)
    (Timestamp m) x (RetryCnt m) (FirstRejectionTime m)
    (HttpStatusMsg m) (HttpRespBody m) (HttpErr m) (Drop m).
Definition set_RetryInfo (cnt first : Z) (m : HttpRequestMessage) :=
  mkHttpRequestMessage (Delivery m) (MessageId m) (Url m) (Headers m) (Body m)
    (Timestamp m) (Expiration m) cnt first
    (HttpStatusMsg m) (HttpRespBody m) (HttpErr m) (Drop m).
Definition set_HttpStatusMsg (x : string) (m : HttpRequestMessage) :=
  mkHttpRequestMessage (Delivery m) (MessageId m) (Url m) (Headers m) (Body m)
    (Timestamp m) (Expiration m) (RetryCnt m) (FirstRejectionTime m)
    x (HttpRespBody m) (HttpErr m) (Drop m).
Definition set_HttpRespBody (x : string) (m : HttpRequestMessage) :=
  mkHttpRequestMessage (Delivery m) (MessageId m) (Url m) (Headers m) (Body m)
    (Timestamp m) (Expiration m) (RetryCnt m) (FirstRejectionTime m)
    (HttpStatusMsg m) x (HttpErr m) (Drop m).
Definition set_HttpErr (x : option errors.error) (m : HttpRequestMessage) :=
  mkHttpRequestMessage (Delivery m) (MessageId m) (Url m) (Headers m) (Body m)
    (Timestamp m) (Expiration m) (RetryCnt m) (FirstRejectionTime m)
    (HttpStatusMsg m) (HttpRespBody m) x (Drop m).
Definition set_Drop (x : bool) (m : HttpRequestMessage) :=
  mkHttpRequestMessage (Delivery m) (MessageId m) (Url m) (Headers m) (Body m)
    (Timestamp m) (Expiration m) (RetryCnt m) (FirstRejectionTime m)
    (HttpStatusMsg m) (HttpRespBody m) (HttpErr m) x.

(** The struct [MessageFields] local to [Parse]: the decoded message body. *)
Module MessageFields.
Record t : Type := mk {
  Url : string;
  Headers : list (gmap string string);
  Body : string
}.
End MessageFields.

(** What [logFile] receives. *)
Inductive LogEntry : Type :=
| LogWrite (text : string)
| LogDebugMessage (label : string) (msg : HttpRequestMessage)
| LogDebugInt (label : string) (n : Z).

(** A computation that may panic (a failed unchecked type assertion). *)
Inductive exec (A : Type) : Type :=
| Done (a : A)
| Panic (reason : string).
Arguments Done {A} a.
Arguments Panic {A} reason.

#[global] Instance exec_bind : MBind exec := fun A B k c =>
  match c with
  | Done a => k a
  | Panic r => Panic r
  end.

(** The name of the dynamic type of a value, as the runtime prints it. *)
Definition typeName (v : amqp.value) : string :=
  match v with
  | amqp.VNil => "nil"
  | amqp.VBool _ => "bool"
  | amqp.VInt32 _ => "int32"
  | amqp.VInt64 _ => "int64"
  | amqp.VString _ => "string"
  | amqp.VBytes _ => "[]uint8"
  | amqp.VTime _ => "time.Time"
  | amqp.VList _ => "[]interface {}"
  | amqp.VTable _ => "amqp.Table"
  end.

(** The panic of a failed type assertion [v.(T)]. *)
Definition conversionPanic {A : Type} (v : amqp.value) (T : string) : exec A :=
  Panic ("interface conversion: interface {} is " +:+ typeName v
         +:+ ", not " +:+ T).

(** The unchecked type assertions of [getRetryInfo]. *)
Definition assert_list (v : amqp.value) : exec (list amqp.value) :=
  match v with
  | amqp.VList l => Done l
  | _ => conversionPanic v "[]interface {}"
  end.

Definition assert_Table (v : amqp.value) : exec amqp.Table :=
  match v with
  | amqp.VTable t => Done t
  | _ => conversionPanic v "amqp.Table"
  end.

Definition assert_int64 (v : amqp.value) : exec Z :=
  match v with
  | amqp.VInt64 n => Done n
  | _ => conversionPanic v "int64"
  end.

Definition assert_Time (v : amqp.value) : exec time.Time :=
  match v with
  | amqp.VTime t => Done t
  | _ => conversionPanic v "time.Time"
  end.

(** [rejectTime != nil] *)
Definition is_nil (v : amqp.value) : bool :=
  match v with
  | amqp.VNil => true
  | _ => false
  end.

(** [getRetryInfo]: the retry count and the time of the first rejection, read
    from the second map of the [x-death] header. *)
Definition getRetryInfo (rmqHeaders : amqp.Table) : exec (Z * Z) :=
  let retryCnt := 0 in
  let firstRejectionTime := 0 in
  match rmqHeaders !! "x-death" with
  | Some deathHistory =>
      queueDeathHistory ← assert_list deathHistory;
      if (length queueDeathHistory =? 2)%nat then
        mainQueueDeathHistory ←
          assert_Table (nth 1 queueDeathHistory amqp.VNil);
        retryCnt ←
          match mainQueueDeathHistory !! "count" with
          | Some retries => assert_int64 retries
          | None => Done retryCnt
          end;
        firstRejectionTime ←
          match mainQueueDeathHistory !! "time" with
          | Some rejectTime =>
              if is_nil rejectTime then Done firstRejectionTime
              else t ← assert_Time rejectTime; Done (time.Unix t)
          | None => Done firstRejectionTime
          end;
        Done (retryCnt, firstRejectionTime)
      else Done (retryCnt, firstRejectionTime)
  | None => Done (retryCnt, firstRejectionTime)
  end.

(** The loop of [Parse] over [fields.Headers]: every key of every map, in the
    order of the sequence, is assigned into the one map. *)
Definition flattenHeaders (hs : list (gmap string string))
  : gmap string string :=
  fold_left
    (fun acc m => map_fold (fun key val acc => <[key := val]> acc) acc m)
    hs ∅.

(** How a call of [Parse] ends, what it leaves in the receiver and what it
    logged. *)
Inductive Completion : Type :=
| Returns (err : option errors.error)
| Panics (reason : string).

Record ParseRun : Type := mkRun {
  message : HttpRequestMessage;
  logged : list LogEntry;
  completion : Completion
}.

Definition expirationWarning : string :=
  "Header value 'expiration' is invalid, or the expiration time has already past. Default TTL will be used.".
Definition messageIdWarning : string :=
  "Header value 'message_id' is invalid or empty. The Message ID will be the md5 hash of the RabbitMQ message body.".

(** The three debug lines and the normal return that end [Parse]. *)
Definition parsed (msg : HttpRequestMessage) (log : list LogEntry) : ParseRun :=
  mkRun msg
    (log ++ [ LogDebugMessage "Message fields:" msg;
              LogDebugInt "Retry:" (RetryCnt msg);
              LogDebugInt "First Rejection Time:" (FirstRejectionTime msg) ])
    (Returns None).

(** The block of [Parse] that reads the [expiration] header. *)
Definition parseExpiration (rmqHeaders : amqp.Table) (now : Z)
    (msg : HttpRequestMessage) : HttpRequestMessage * list LogEntry :=
  match rmqHeaders !! "expiration" with
  | Some (amqp.VInt64 expiration) =>
      if expiration <? now then (msg, [LogWrite expirationWarning])
      else (set_Expiration expiration msg, [])
  | Some _ => (msg, [LogWrite expirationWarning])
  | None => (msg, [])
  end.

(** The block of [Parse] that reads the [message_id] header. *)
Definition parseMessageId (rmqHeaders : amqp.Table)
    (msg : HttpRequestMessage) : HttpRequestMessage * list LogEntry :=
  match rmqHeaders !! "message_id" with
  | Some (amqp.VString messageId) =>
      if (String.length messageId =? 0)%nat
      then (msg, [LogWrite messageIdWarning])
      else (set_MessageId messageId msg, [])
  | Some _ => (msg, [LogWrite messageIdWarning])
  | None => (msg, [])
  end.

(** The block of [Parse] that computes the Message ID when none was
    provided: the md5 hash of the message body, and the original timestamp
    appended if available. *)
Definition defaultMessageId (body : list byte) (msg : HttpRequestMessage)
  : HttpRequestMessage :=
  if (String.length (MessageId msg) =? 0)%nat then
    let msg := set_MessageId (fmt.hex (md5.Sum body)) msg in
    if Timestamp msg >? 0
    then set_MessageId (MessageId msg +:+ "-" +:+ fmt.decimal (Timestamp msg)) msg
    else msg
  else msg.

Section Parser.

(** [json.Unmarshal(body, &fields)] on a zero [fields]. *)
Variable json_Unmarshal : list byte -> http.result MessageFields.t.

(** [msg.Parse(rmqDelivery, logFile)], with [now] the value of
    [time.Now().Unix()]. *)
Definition Parse (msg : HttpRequestMessage) (rmqDelivery : amqp.Delivery)
    (now : Z) : ParseRun :=
  let msg := set_Delivery rmqDelivery msg in
  match json_Unmarshal (amqp.Body rmqDelivery) with
  | http.Err err => mkRun msg [] (Returns (Some err))
  | http.Ok fields =>
  if (String.length (MessageFields.Url fields) =? 0)%nat then
    mkRun msg [] (Returns (Some (errors.New "Field 'url' is empty or missing")))
  else
  let msg := set_Url (MessageFields.Url fields) msg in
  let msg := set_Headers (flattenHeaders (MessageFields.Headers fields)) msg in
  let msg := set_Body (MessageFields.Body fields) msg in
  let msg :=
    if negb (time.IsZero (amqp.Timestamp rmqDelivery))
    then set_Timestamp (time.Unix (amqp.Timestamp rmqDelivery)) msg
    else msg in
  match amqp.Headers rmqDelivery with
  | None => parsed msg []
  | Some rmqHeaders =>
  let '(msg, log1) := parseExpiration rmqHeaders now msg in
  let '(msg, log2) := parseMessageId rmqHeaders msg in
  let msg := defaultMessageId (amqp.Body rmqDelivery) msg in
  match getRetryInfo rmqHeaders with
  | Panic reason => mkRun msg (log1 ++ log2) (Panics reason)
  | Done (retryCnt, firstRejectionTime) =>
      parsed (set_RetryInfo retryCnt firstRejectionTime msg) (log1 ++ log2)
  end
  end
  end.

End Parser.

(** [msg.HttpPost(ackCh, timeout)]: [msg] is the callee's copy of the
    receiver, [ackCh] the messages already sent on the channel; the result is
    the channel after the call.  The method returns nothing and has no other
    effect on the caller. *)
Definition HttpPost (net : http.Stack) (msg : HttpRequestMessage)
    (ackCh : list HttpRequestMessage) (timeout : Z)
  : list HttpRequestMessage :=
  match http.NewRequest net "POST" (Url msg) (Body msg) with
  | http.Err err =>
      let msg := set_HttpErr (Some err) msg in
      let msg :=
        set_HttpStatusMsg ("Invalid http request: " +:+ errors.Error err) msg in
      let msg := set_Drop true msg in
      ackCh ++ [msg]
  | http.Ok req =>
  let client := http.mkClient (time.Seconds timeout) in
  let req :=
    map_fold (fun hkey hval req => http.Header_Set net hkey hval req)
      req (Headers msg) in
  match http.Do net client req with
  | http.Err err =>
      let msg := set_HttpErr (Some err) msg in
      let msg :=
        set_HttpStatusMsg ("Error on http POST: " +:+ errors.Error err) msg in
      ackCh ++ [msg]
  | http.Ok resp =>
  let msg :=
    match http.ReadAll resp with
    | http.Err _ =>
        set_HttpRespBody "Error encountered when reading POST response body" msg
    | http.Ok htmlData =>
        let msg := set_HttpStatusMsg (http.Status resp) msg in
        set_HttpRespBody htmlData msg
    end in
  if (http.StatusCode resp >=? 400) && (http.StatusCode resp <=? 499) then
    let msg :=
      set_HttpErr
        (Some (errors.New
           ("4XX status on http POST (no retry): " +:+ http.Status resp))) msg in
    let msg := set_Drop true msg in
    ackCh ++ [msg]
  else if (http.StatusCode resp >=? 200) && (http.StatusCode resp <=? 299) then
    let msg := set_Drop true msg in
    ackCh ++ [msg]
  else
    let msg :=
      set_HttpErr
        (Some (errors.New ("Error on http POST: " +:+ http.Status resp))) msg in
    ackCh ++ [msg]
  end
  end.

(** ** The outcome of a dispatch, as the specification names it *)

(** The specification's [Disposition].  The source encodes it in the pair
    ([Drop], [HttpErr]): a message that is dropped without an error was
    accepted, one dropped with an error is given up, one not dropped is to be
    retried. *)
Inductive Disposition : Type :=
| Accepted
| Dropped
| RetryEligible.

#[global] Instance Disposition_eq_dec : EqDecision Disposition.
Proof. solve_decision. Defined.

Definition disposition (msg : HttpRequestMessage) : Disposition :=
  if Drop msg then
    match HttpErr msg with
    | None => Accepted
    | Some _ => Dropped
    end
  else RetryEligible.

(** The classification by status code, in the words of the specification:
    400-499 is dropped, 200-299 is accepted, anything else is retried. *)
Definition classifyStatus (code : Z) : Disposition :=
  if (400 <=? code) && (code <=? 499) then Dropped
  else if (200 <=? code) && (code <=? 299) then Accepted
  else RetryEligible.

(** The loop of [HttpPost] over [msg.Headers] and the client it makes, as the
    arguments [client.Do] receives. *)
Definition sentRequest (net : http.Stack) (msg : HttpRequestMessage)
    (req : http.Request) : http.Request :=
  map_fold (fun hkey hval req => http.Header_Set net hkey hval req)
    req (Headers msg).

Definition sentClient (timeout : Z) : http.Client :=
  http.mkClient (time.Seconds timeout).

(** A message whose outcome fields are still the zero values [Parse] leaves. *)
Definition undispatched (msg : HttpRequestMessage) : Prop :=
  HttpStatusMsg msg = EmptyString /\ HttpRespBody msg = EmptyString /\
  HttpErr msg = None /\ Drop msg = false.

(** [out] is [msg] with other outcome fields: the four fields a dispatch
    writes are the only ones that may differ. *)
Definition sameRequest (msg out : HttpRequestMessage) : Prop :=
  out = set_Drop (Drop out) (set_HttpErr (HttpErr out)
          (set_HttpRespBody (HttpRespBody out)
             (set_HttpStatusMsg (HttpStatusMsg out) msg))).

(** ** Shapes of the attribute table, in the words of the specification *)

(** The [message_id] attribute when it is a non-empty string. *)
Definition validMessageId (h : amqp.Table) : option string :=
  match h !! "message_id" with
  | Some (amqp.VString s) =>
      if (String.length s =? 0)%nat then None else Some s
  | _ => None
  end.

(** The creation time [Parse] leaves in the message: the one of the
    delivery, or what the receiver had when the delivery has none. *)
Definition createdAt (msg : HttpRequestMessage) (d : amqp.Delivery) : Z :=
  if time.IsZero (amqp.Timestamp d) then Timestamp msg
  else time.Unix (amqp.Timestamp d).

(** The identifier computed from the body and the creation time. *)
Definition computedMessageId (body : list byte) (createdAt : Z) : string :=
  fmt.hex (md5.Sum body)
  +:+ (if createdAt >? 0 then "-" +:+ fmt.decimal createdAt else EmptyString).

(** The redelivery history is absent, or a list that does not have exactly
    two entries. *)
Definition noRetryHistory (hdrs : option amqp.Table) : bool :=
  match hdrs with
  | None => true
  | Some h =>
      match h !! "x-death" with
      | None => true
      | Some (amqp.VList l) => negb (length l =? 2)%nat
      | Some _ => false
      end
  end.

(** A [count] that is absent or an [int64]; a [time] that is absent, nil or a
    [time.Time]. *)
Definition countReadable (t : amqp.Table) : bool :=
  match t !! "count" with
  | None | Some (amqp.VInt64 _) => true
  | Some _ => false
  end.

Definition timeReadable (t : amqp.Table) : bool :=
  match t !! "time" with
  | None | Some amqp.VNil | Some (amqp.VTime _) => true
  | Some _ => false
  end.

(** The redelivery history has a shape [getRetryInfo] reads to the end. *)
Definition readableHistory (h : amqp.Table) : bool :=
  match h !! "x-death" with
  | None => true
  | Some (amqp.VList [_; amqp.VTable t]) => countReadable t && timeReadable t
  | Some (amqp.VList [_; _]) => false
  | Some (amqp.VList _) => true
  | Some _ => false
  end.

(** What the second entry of a two-entry history gives for each field. *)
Definition countOf (t : amqp.Table) : Z :=
  match t !! "count" with
  | Some (amqp.VInt64 c) => c
  | _ => 0
  end.

Definition timeOf (t : amqp.Table) : Z :=
  match t !! "time" with
  | Some (amqp.VTime T) => time.Unix T
  | _ => 0
  end.

(** Last-wins, in the words of the specification: the value of a key is the
    one of its last occurrence in the sequence. *)
Fixpoint lastOccurrence (hs : list (gmap string string)) (key : string)
  : option string :=
  match hs with
  | [] => None
  | m :: rest =>
      match lastOccurrence rest key with
      | Some v => Some v
      | None => m !! key
      end
  end.

(** ** Sample envelopes and a sample network *)

Fixpoint bytes_eqb (a b : list byte) : bool :=
  match a, b with
  | [], [] => true
  | x :: a', y :: b' => Byte.eqb x y && bytes_eqb a' b'
  | _, _ => false
  end.

(** The bytes of
    [{"url":"http://x/y","headers":[{"A":"1"},{"A":"2"}],"body":"payload"}] *)
Definition sampleBody : list byte :=
  [ x7b; x22; x75; x72; x6c; x22; x3a; x22; x68; x74; x74; x70;
    x3a; x2f; x2f; x78; x2f; x79; x22; x2c; x22; x68; x65; x61;
    x64; x65; x72; x73; x22; x3a; x5b; x7b; x22; x41; x22; x3a;
    x22; x31; x22; x7d; x2c; x7b; x22; x41; x22; x3a; x22; x32;
    x22; x7d; x5d; x2c; x22; x62; x6f; x64; x79; x22; x3a; x22;
    x70; x61; x79; x6c; x6f; x61; x64; x22; x7d ].

Definition sampleFields : MessageFields.t :=
  MessageFields.mk "http://x/y" [ {["A" := "1"]}; {["A" := "2"]} ] "payload".

(** A decoder that knows the sample body and rejects everything else. *)
Definition sampleUnmarshal (body : list byte) : http.result MessageFields.t :=
  if bytes_eqb body sampleBody then http.Ok sampleFields
  else http.Err (errors.New "invalid character looking for beginning of value").

Definition sampleTime : time.Time := time.FromUnix 1500000000 0.

(** A delivery of the sample body with the given attribute table and
    creation time. *)
Definition sampleDelivery (hdrs : option amqp.Table) (created : time.Time)
  : amqp.Delivery :=
  amqp.mkDelivery hdrs "application/json" EmptyString created EmptyString
    1 false EmptyString "work" sampleBody.

Definition sampleEntry : amqp.value :=
  amqp.VTable {[ "count" := amqp.VInt64 3; "time" := amqp.VTime sampleTime ]}.

(** A network where [http://x/y] answers 201, [http://x/cut] answers 200 and
    breaks while the body is read, [http://down/] refuses the connection and
    a URL with a space is rejected by [http.NewRequest]. *)
Definition sampleStack : http.Stack :=
  http.mkStack
    (fun method url body =>
       if String.eqb url "http://x /y"
       then http.Err (errors.New "invalid character in host name")
       else http.Ok (http.mkRequest method url body ∅))
    (fun key => key)
    (fun client req =>
       if String.eqb (http.URL req) "http://down/"
       then http.Err (errors.New "dial tcp: connection refused")
       else if String.eqb (http.URL req) "http://x/cut"
       then http.Ok (http.mkResponse "200 OK" 200
                       (http.Err (errors.New "unexpected EOF")))
       else http.Ok (http.mkResponse "201 Created" 201 (http.Ok "done"))).

Definition sampleMessage (url : string) : HttpRequestMessage :=
  set_Body "payload" (set_Url url zeroMessage).

(** ** [Parse] in closed form *)

(** The message once the fields of the body and the creation time are
    assigned, before the attribute table is looked at. *)
Definition decodedMessage (msg : HttpRequestMessage) (d : amqp.Delivery)
    (fields : MessageFields.t) : HttpRequestMessage :=
  let msg := set_Delivery d msg in
  let msg := set_Url (MessageFields.Url fields) msg in
  let msg := set_Headers (flattenHeaders (MessageFields.Headers fields)) msg in
  let msg := set_Body (MessageFields.Body fields) msg in
  if negb (time.IsZero (amqp.Timestamp d))
  then set_Timestamp (time.Unix (amqp.Timestamp d)) msg
  else msg.

(** The [expiration] attribute when it is an [int64] that is not before
    [now]. *)
Definition validExpiration (h : amqp.Table) (now : Z) : option Z :=
  match h !! "expiration" with
  | Some (amqp.VInt64 e) => if e <? now then None else Some e
  | _ => None
  end.

(** An attribute that is present and not used draws a warning. *)
Definition expirationWarned (h : amqp.Table) (now : Z) : bool :=
  match h !! "expiration", validExpiration h now with
  | Some _, None => true
  | _, _ => false
  end.

Definition messageIdWarned (h : amqp.Table) : bool :=
  match h !! "message_id", validMessageId h with
  | Some _, None => true
  | _, _ => false
  end.

Definition warnings (h : amqp.Table) (now : Z) : list LogEntry :=
  (if expirationWarned h now then [LogWrite expirationWarning] else [])
  ++ (if messageIdWarned h then [LogWrite messageIdWarning] else []).

(** The expiration and the Message ID after the table is read, from what the
    receiver held before. *)
Definition acceptedExpiration (h : amqp.Table) (now old : Z) : Z :=
  match validExpiration h now with
  | Some e => e
  | None => old
  end.

Definition chosenMessageId (h : amqp.Table) (body : list byte)
    (old : string) (created : Z) : string :=
  match validMessageId h with
  | Some s => s
  | None =>
      if (String.length old =? 0)%nat then computedMessageId body created
      else old
  end.

(** Two header names that [req.Header.Set] files under one key. *)
Definition sameHeaderKey (net : http.Stack) (k1 k2 : string) : Prop :=
  http.CanonicalHeaderKey net k1 = http.CanonicalHeaderKey net k2.

(** The 2xx range. *)
Definition is2xx (code : Z) : bool := (200 <=? code) && (code <=? 299).

(** ** More sample data *)

(** A redelivered message: identified by its producer, rejected three times,
    with an expiration in the future of the sample clock. *)
Definition sampleRedelivered : amqp.Table :=
  {[ "message_id" := amqp.VString "order-1";
     "expiration" := amqp.VInt64 1700000000;
     "x-death" := amqp.VList [amqp.VTable ∅; sampleEntry] ]}.

(** A message with two headers, for the sample network (whose header keys
    are canonical as they are). *)
Definition sampleWithHeaders : HttpRequestMessage :=
  set_Headers {[ "Content-Type" := "application/json"; "X-Trace" := "7" ]}
    (sampleMessage "http://x/y").

(** ** Receivers in memory *)

(** The variables of type [HttpRequestMessage] a goroutine holds, by
    address, the latest frame last, and the channel [ackCh].  An address is
    an index in [variables]. *)
Record Memory : Type := mkMemory {
  variables : list HttpRequestMessage;
  channel : list HttpRequestMessage
}.

(** A statement: it changes the memory and yields a value. *)
Definition Action (A : Type) : Type := Memory -> A * Memory.

#[global] Instance Action_ret : MRet Action := fun A a s => (a, s).
#[global] Instance Action_bind : MBind Action := fun A B k c s =>
  let '(a, s') := c s in k a s'.

(** Reading the variable at [a]. *)
Definition load (a : nat) : Action HttpRequestMessage := fun s =>
  (default zeroMessage (variables s !! a), s).

(** A field assignment [v.F = x] on the variable at [a]. *)
Definition assign (a : nat) (f : HttpRequestMessage -> HttpRequestMessage)
  : Action unit := fun s =>
  (tt, mkMemory (alter f a (variables s)) (channel s)).

(** [ackCh <- v]: the value of the variable at [a] is copied to the
    channel. *)
Definition send (a : nat) : Action unit := fun s =>
  (tt, mkMemory (variables s)
         (channel s ++ [default zeroMessage (variables s !! a)])).

(** The body of [HttpPost], statement by statement, on the variable [msg] at
    address [self]. *)
Definition HttpPostBody (net : http.Stack) (self : nat) (timeout : Z)
  : Action unit :=
  msg ← load self;
  match http.NewRequest net "POST" (Url msg) (Body msg) with
  | http.Err err =>
      assign self (set_HttpErr (Some err));;
      assign self
        (set_HttpStatusMsg ("Invalid http request: " +:+ errors.Error err));;
      assign self (set_Drop true);;
      send self
  | http.Ok req =>
  let client := http.mkClient (time.Seconds timeout) in
  let req :=
    map_fold (fun hkey hval req => http.Header_Set net hkey hval req)
      req (Headers msg) in
  match http.Do net client req with
  | http.Err err =>
      assign self (set_HttpErr (Some err));;
      assign self
        (set_HttpStatusMsg ("Error on http POST: " +:+ errors.Error err));;
      send self
  | http.Ok resp =>
      match http.ReadAll resp with
      | http.Err _ =>
          assign self
            (set_HttpRespBody
               "Error encountered when reading POST response body")
      | http.Ok htmlData =>
          assign self (set_HttpStatusMsg (http.Status resp));;
          assign self (set_HttpRespBody htmlData)
      end;;
      if (http.StatusCode resp >=? 400) && (http.StatusCode resp <=? 499)
      then
        assign self
          (set_HttpErr
             (Some (errors.New
                ("4XX status on http POST (no retry): "
                 +:+ http.Status resp))));;
        assign self (set_Drop true);;
        send self
      else if (http.StatusCode resp >=? 200) && (http.StatusCode resp <=? 299)
      then
        assign self (set_Drop true);;
        send self
      else
        assign self
          (set_HttpErr
             (Some (errors.New ("Error on http POST: " +:+ http.Status resp))));;
        send self
  end
  end.

(** The call of a method with a value receiver, [func (msg T) m(...)], on
    the variable at [caller]: the receiver is a new variable of the callee's
    frame, initialised with a copy of the caller's; the body runs on it; the
    frame is gone when the method returns. *)
Definition callByValue (caller : nat) (body : nat -> Action unit)
  : Action unit := fun s =>
  let self := length (variables s) in
  let copy := default zeroMessage (variables s !! caller) in
  let '(_, s') := body self (mkMemory (variables s ++ [copy]) (channel s)) in
  (tt, mkMemory (take self (variables s')) (channel s')).

(** The call of a method with a pointer receiver, [func (msg *T) m(...)]:
    the body runs on the caller's variable. *)
Definition callByPointer (caller : nat) (body : nat -> Action unit)
  : Action unit := body caller.

(** [msg.HttpPost(ackCh, timeout)], as declared:
    [func (msg HttpRequestMessage) HttpPost(...)]. *)
Definition callHttpPost (net : http.Stack) (caller : nat) (timeout : Z)
  : Action unit :=
  callByValue caller (fun self => HttpPostBody net self timeout).

(** * Properties *)

(** ** The checksum and its printing *)

(** RFC 1321, appendix A.5: the checksums of the empty string and of [abc]. *)
Example md5_test_suite :
  fmt.hex (md5.Sum []) = "d41d8cd98f00b204e9800998ecf8427e" /\
  fmt.hex (md5.Sum (list_byte_of_string "abc"))
  = "900150983cd24fb0d6963f7d28e17f72".
Proof. split; vm_compute; reflexivity. Qed.

(** [md5.Sum] returns a [[16]byte]. *)
Lemma Sum_length (data : list byte) : length (md5.Sum data) = 16%nat.
Proof.
  unfold md5.Sum.
  destruct (fold_left md5.block _ md5.init) as [[[a b] c] d].
  reflexivity.
Qed.

Lemma hex_length (bs : list byte) :
  String.length (fmt.hex bs) = (2 * length bs)%nat.
Proof.
  induction bs as [|b bs IH]; simpl; [reflexivity|].
  rewrite IH. lia.
Qed.

(** The printed checksum has 32 digits; in particular it is not empty. *)
Lemma hex_Sum_length (data : list byte) :
  String.length (fmt.hex (md5.Sum data)) = 32%nat.
Proof. rewrite hex_length, Sum_length. reflexivity. Qed.

Lemma append_nonempty (s1 s2 : string) :
  s1 <> EmptyString -> s1 +:+ s2 <> EmptyString.
Proof. destruct s1; [congruence | discriminate]. Qed.

Lemma computedMessageId_nonempty (body : list byte) (createdAt : Z) :
  computedMessageId body createdAt <> EmptyString.
Proof.
  unfold computedMessageId. apply append_nonempty.
  intros E. pose proof (hex_Sum_length body) as L.
  rewrite E in L. discriminate L.
Qed.

(** ** The header loop *)

(** Assigning every entry of [m] into [acc], in whatever order the map is
    ranged over, gives [m] over [acc]. *)
Lemma assign_all_union (m acc : gmap string string) :
  map_fold (fun key val acc => <[key := val]> acc) acc m = m ∪ acc.
Proof.
  apply (map_fold_weak_ind (fun r m => r = m ∪ acc)).
  - symmetry. apply (left_id_L ∅ (∪)).
  - intros key val m' r _ ->. apply insert_union_l.
Qed.

Lemma fold_headers_lookup (hs : list (gmap string string))
    (acc : gmap string string) (key : string) :
  fold_left
    (fun acc m => map_fold (fun key val acc => <[key := val]> acc) acc m)
    hs acc !! key
  = match lastOccurrence hs key with
    | Some v => Some v
    | None => acc !! key
    end.
Proof.
  revert acc. induction hs as [|m hs IH]; intros acc; simpl; [reflexivity|].
  rewrite IH, assign_all_union.
  destruct (lastOccurrence hs key) as [v|]; [reflexivity|].
  rewrite lookup_union.
  destruct (m !! key), (acc !! key); reflexivity.
Qed.

Lemma flattenHeaders_lookup (hs : list (gmap string string)) (key : string) :
  flattenHeaders hs !! key = lastOccurrence hs key.
Proof.
  unfold flattenHeaders. rewrite fold_headers_lookup.
  destruct (lastOccurrence hs key); [reflexivity | apply lookup_empty].
Qed.

(** ** The retry history *)

Lemma getRetryInfo_absent (h : amqp.Table) :
  h !! "x-death" = None -> getRetryInfo h = Done (0, 0).
Proof. intros E. unfold getRetryInfo. rewrite E. reflexivity. Qed.

Lemma getRetryInfo_other_length (h : amqp.Table) (l : list amqp.value) :
  h !! "x-death" = Some (amqp.VList l) -> length l <> 2%nat ->
  getRetryInfo h = Done (0, 0).
Proof.
  intros E L. unfold getRetryInfo. rewrite E. simpl.
  destruct (Nat.eqb_spec (length l) 2); [contradiction | reflexivity].
Qed.

(** With two entries, the second one is read, each field on its own. *)
Lemma getRetryInfo_second_entry (h t : amqp.Table) (e0 : amqp.value) :
  h !! "x-death" = Some (amqp.VList [e0; amqp.VTable t]) ->
  countReadable t = true -> timeReadable t = true ->
  getRetryInfo h = Done (countOf t, timeOf t).
Proof.
  intros E C T. unfold getRetryInfo. rewrite E. simpl.
  unfold countReadable, timeReadable, countOf, timeOf in *.
  destruct (t !! "count") as [[]|]; try discriminate C;
    destruct (t !! "time") as [[]|]; try discriminate T; reflexivity.
Qed.

Lemma noRetryHistory_defaults (h : amqp.Table) :
  noRetryHistory (Some h) = true -> getRetryInfo h = Done (0, 0).
Proof.
  unfold noRetryHistory. intros H.
  destruct (h !! "x-death") as [v|] eqn:E.
  - destruct v; try discriminate H.
    apply (getRetryInfo_other_length h l E).
    destruct (Nat.eqb_spec (length l) 2); [discriminate H | assumption].
  - apply getRetryInfo_absent, E.
Qed.

(** [getRetryInfo] returns exactly on the readable histories; on every other
    one it panics. *)
Lemma getRetryInfo_returns_iff (h : amqp.Table) :
  readableHistory h = true <-> exists r, getRetryInfo h = Done r.
Proof.
  unfold readableHistory, getRetryInfo.
  destruct (h !! "x-death") as [v|]; [|split; eauto].
  destruct v as [| | | | | | |l|]; simpl;
    try (split; [discriminate | intros [r R]; discriminate R]).
  destruct l as [|e0 [|e1 [|e2 l]]]; simpl;
    [split; eauto | split; eauto | | destruct e1; split; eauto].
  unfold countReadable, timeReadable.
  destruct e1; simpl;
    try (split; [discriminate | intros [r R]; discriminate R]).
  destruct (t !! "count") as [[]|]; simpl;
    try (split; [discriminate | intros [r R]; discriminate R]);
    destruct (t !! "time") as [[]|]; simpl;
    try (split; [discriminate | intros [r R]; discriminate R]);
    split; eauto.
Qed.

(** ** The blocks of [Parse] *)

Lemma append_empty_r (s : string) : s +:+ EmptyString = s.
Proof.
  induction s as [|c s IH]; [reflexivity|].
  change (String c (s +:+ EmptyString) = String c s). now rewrite IH.
Qed.

Lemma nonempty_length (s : string) :
  s <> EmptyString -> (String.length s =? 0)%nat = false.
Proof. destruct s; [congruence | reflexivity]. Qed.

(** Reading [expiration] writes no field but [Expiration]. *)
Lemma parseExpiration_frame (h : amqp.Table) (now : Z)
    (msg m : HttpRequestMessage) (log : list LogEntry) :
  parseExpiration h now msg = (m, log) ->
  m = set_Expiration (Expiration m) msg.
Proof.
  unfold parseExpiration. destruct msg.
  destruct (h !! "expiration") as [[]|]; try destruct (_ <? _);
    intros [= <- <-]; reflexivity.
Qed.

(** Reading [message_id] assigns it exactly when it is a non-empty string. *)
Lemma parseMessageId_valid (h : amqp.Table) (msg m : HttpRequestMessage)
    (log : list LogEntry) :
  parseMessageId h msg = (m, log) ->
  m = match validMessageId h with
      | Some s => set_MessageId s msg
      | None => msg
      end.
Proof.
  unfold parseMessageId, validMessageId.
  destruct (h !! "message_id") as [[]|]; try destruct (_ =? _)%nat;
    intros [= <- <-]; reflexivity.
Qed.

Lemma defaultMessageId_computed (body : list byte) (msg : HttpRequestMessage) :
  MessageId msg = EmptyString ->
  defaultMessageId body msg
  = set_MessageId (computedMessageId body (Timestamp msg)) msg.
Proof.
  intros E. unfold defaultMessageId, computedMessageId. rewrite E. simpl.
  destruct (Timestamp msg >? 0); [reflexivity|].
  rewrite append_empty_r. reflexivity.
Qed.

Lemma defaultMessageId_provided (body : list byte) (msg : HttpRequestMessage) :
  MessageId msg <> EmptyString -> defaultMessageId body msg = msg.
Proof.
  intros N. unfold defaultMessageId. now rewrite (nonempty_length _ N).
Qed.

Lemma validMessageId_nonempty (h : amqp.Table) (s : string) :
  validMessageId h = Some s -> s <> EmptyString.
Proof.
  unfold validMessageId.
  destruct (h !! "message_id") as [[]|]; try discriminate.
  destruct s0; simpl; [discriminate|]. intros [= <-]. discriminate.
Qed.

(** ** [Parse] as a whole *)

Section ParserFacts.

Variable json_Unmarshal : list byte -> http.result MessageFields.t.

(** A call that returns no error has decoded a body with a non-empty [url]. *)
Lemma Parse_returns_inv (msg : HttpRequestMessage) (d : amqp.Delivery)
    (now : Z) :
  completion (Parse json_Unmarshal msg d now) = Returns None ->
  exists fields, json_Unmarshal (amqp.Body d) = http.Ok fields /\
                 MessageFields.Url fields <> EmptyString.
Proof.
  unfold Parse. destruct (json_Unmarshal (amqp.Body d)) as [fields|err];
    [|discriminate].
  destruct (MessageFields.Url fields) eqn:U; simpl; [discriminate|].
  intros _. exists fields. rewrite U. split; [reflexivity | discriminate].
Qed.

Section Decoded.

Variables (msg : HttpRequestMessage) (d : amqp.Delivery) (now : Z).
Variable fields : MessageFields.t.
Hypothesis decoded : json_Unmarshal (amqp.Body d) = http.Ok fields.
Hypothesis has_url : MessageFields.Url fields <> EmptyString.

Local Ltac enter :=
  unfold Parse; rewrite decoded, (nonempty_length _ has_url).

Local Ltac with_table E :=
  enter; rewrite E;
  let E1 := fresh "E1" in let E2 := fresh "E2" in
  destruct (parseExpiration _ _ _) as [m1 log1] eqn:E1;
  destruct (parseMessageId _ _) as [m2 log2] eqn:E2;
  apply parseExpiration_frame in E1; apply parseMessageId_valid in E2.

Lemma Parse_Headers :
  Headers (message (Parse json_Unmarshal msg d now))
  = flattenHeaders (MessageFields.Headers fields).
Proof.
  destruct (amqp.Headers d) as [h|] eqn:E.
  - with_table E. unfold defaultMessageId.
    assert (Headers m2 = flattenHeaders (MessageFields.Headers fields)) as H2.
    { rewrite E2, E1.
      destruct (validMessageId h), (time.IsZero _); reflexivity. }
    destruct (getRetryInfo h) as [[c f]|r]; simpl;
      destruct (_ =? _)%nat; simpl; try destruct (_ >? _); simpl; exact H2.
  - enter. rewrite E. destruct (time.IsZero _); reflexivity.
Qed.

Lemma Parse_Timestamp :
  Timestamp (message (Parse json_Unmarshal msg d now)) = createdAt msg d.
Proof.
  unfold createdAt. destruct (amqp.Headers d) as [h|] eqn:E.
  - with_table E. unfold defaultMessageId.
    assert (Timestamp m2 = if time.IsZero (amqp.Timestamp d)
                           then Timestamp msg
                           else time.Unix (amqp.Timestamp d)) as H2.
    { rewrite E2, E1.
      destruct (validMessageId h), (time.IsZero _); reflexivity. }
    destruct (getRetryInfo h) as [[c f]|r]; simpl;
      destruct (_ =? _)%nat; simpl; try destruct (_ >? _); simpl; exact H2.
  - enter. rewrite E. destruct (time.IsZero _); reflexivity.
Qed.

(** Without an attribute table the call returns, and neither the Message ID
    nor the retry fields of the receiver are assigned. *)
Lemma Parse_nil_table :
  amqp.Headers d = None ->
  completion (Parse json_Unmarshal msg d now) = Returns None /\
  MessageId (message (Parse json_Unmarshal msg d now)) = MessageId msg /\
  RetryCnt (message (Parse json_Unmarshal msg d now)) = RetryCnt msg /\
  FirstRejectionTime (message (Parse json_Unmarshal msg d now)) = FirstRejectionTime msg.
Proof.
  intros E. enter. rewrite E. destruct (time.IsZero _); simpl; auto.
Qed.

Section WithTable.

Variable h : amqp.Table.
Hypothesis has_table : amqp.Headers d = Some h.

(** With a table the call ends as [getRetryInfo] does. *)
Lemma Parse_table_completion :
  completion (Parse json_Unmarshal msg d now)
  = match getRetryInfo h with
    | Done _ => Returns None
    | Panic reason => Panics reason
    end.
Proof.
  with_table has_table. destruct (getRetryInfo h) as [[c f]|r]; reflexivity.
Qed.

Lemma Parse_table_RetryInfo (c f : Z) :
  getRetryInfo h = Done (c, f) ->
  RetryCnt (message (Parse json_Unmarshal msg d now)) = c /\
  FirstRejectionTime (message (Parse json_Unmarshal msg d now)) = f.
Proof.
  intros R. with_table has_table. rewrite R. simpl. auto.
Qed.

(** The Message ID: the valid header, else what the receiver already had,
    else the identifier computed from the body and the creation time. *)
Lemma Parse_table_MessageId :
  MessageId (message (Parse json_Unmarshal msg d now))
  = match validMessageId h with
    | Some s => s
    | None =>
        if (String.length (MessageId msg) =? 0)%nat
        then computedMessageId (amqp.Body d) (createdAt msg d)
        else MessageId msg
    end.
Proof.
  with_table has_table.
  assert (MessageId (defaultMessageId (amqp.Body d) m2)
          = match validMessageId h with
            | Some s => s
            | None =>
                if (String.length (MessageId msg) =? 0)%nat
                then computedMessageId (amqp.Body d) (createdAt msg d)
                else MessageId msg
            end) as H2.
  { destruct (validMessageId h) as [s|] eqn:V.
    - rewrite defaultMessageId_provided; rewrite E2; simpl;
        [reflexivity | exact (validMessageId_nonempty _ _ V)].
    - destruct (MessageId msg) as [|c0 s0] eqn:M; simpl.
      + rewrite defaultMessageId_computed; rewrite E2, E1; simpl.
        * unfold createdAt. destruct (time.IsZero _); reflexivity.
        * destruct (time.IsZero _); simpl; exact M.
      + rewrite defaultMessageId_provided; rewrite E2, E1; simpl;
          destruct (time.IsZero _); simpl; rewrite M;
          (reflexivity || discriminate). }
  destruct (getRetryInfo h) as [[c f]|r]; simpl; exact H2.
Qed.

End WithTable.

(** [Parse] writes none of the outcome fields. *)
Lemma Parse_outcome_untouched :
  let m := message (Parse json_Unmarshal msg d now) in
  HttpStatusMsg m = HttpStatusMsg msg /\ HttpRespBody m = HttpRespBody msg /\
  HttpErr m = HttpErr msg /\ Drop m = Drop msg.
Proof.
  destruct (amqp.Headers d) as [h|] eqn:E; cbv zeta.
  - with_table E. unfold defaultMessageId.
    assert (HttpStatusMsg m2 = HttpStatusMsg msg /\
            HttpRespBody m2 = HttpRespBody msg /\
            HttpErr m2 = HttpErr msg /\ Drop m2 = Drop msg) as H2.
    { rewrite E2, E1.
      destruct (validMessageId h), (time.IsZero _); simpl; auto. }
    destruct (getRetryInfo h) as [[c f]|r]; simpl;
      destruct (_ =? _)%nat; simpl; try destruct (_ >? _); simpl; exact H2.
  - enter. rewrite E. destruct (time.IsZero _); simpl; auto.
Qed.

End Decoded.

(** Whatever [Parse] does to a fresh message, its outcome fields are still
    unset: this is the message [HttpPost] is called on. *)
Lemma Parse_fresh_undispatched (d : amqp.Delivery) (now : Z) :
  undispatched (message (Parse json_Unmarshal zeroMessage d now)).
Proof.
  destruct (json_Unmarshal (amqp.Body d)) as [fields|err] eqn:J.
  - destruct (MessageFields.Url fields) as [|c u] eqn:U.
    + unfold Parse. rewrite J, U. repeat split.
    + assert (MessageFields.Url fields <> EmptyString) as N
        by (rewrite U; discriminate).
      destruct (Parse_outcome_untouched zeroMessage d now fields J N)
        as (A & B & C & D).
      unfold undispatched. rewrite A, B, C, D. repeat split.
  - unfold Parse. rewrite J. repeat split.
Qed.

End ParserFacts.

(** What [getRetryInfo] returns, when it returns. *)
Lemma getRetryInfo_value (h : amqp.Table) (r : Z * Z) :
  getRetryInfo h = Done r ->
  r = match h !! "x-death" with
      | Some (amqp.VList [_; amqp.VTable t]) => (countOf t, timeOf t)
      | _ => (0, 0)
      end.
Proof.
  unfold getRetryInfo.
  destruct (h !! "x-death") as [v|]; [|intros [= <-]; reflexivity].
  destruct v as [| | | | | | |l|]; simpl; try discriminate.
  destruct l as [|e0 [|e1 [|e2 l]]]; simpl;
    [intros [= <-]; reflexivity | intros [= <-]; reflexivity |
    | intros [= <-]; destruct e1; reflexivity].
  destruct e1; simpl; try discriminate.
  unfold countOf, timeOf.
  destruct (t !! "count") as [[]|]; simpl; try discriminate;
    destruct (t !! "time") as [[]|]; simpl; try discriminate;
    intros [= <-]; reflexivity.
Qed.

(** * [Parse]: the Message ID, the retry history and the headers *)

Section ParseClaims.

Variable json_Unmarshal : list byte -> http.result MessageFields.t.

(** The Message ID of a delivery that carries an attribute table.  When
    [Parse], called on a fresh message, returns no error, the Message ID is
    not empty: it is the [message_id] attribute when that is a non-empty
    string; when the attribute is absent, empty or not a string it is the MD5
    hex digest of the raw body, with ["-<Timestamp>"] appended when the
    creation time is greater than zero. *)
Lemma Parse_MessageId_populated (d : amqp.Delivery) (now : Z)
    (h : amqp.Table) :
  amqp.Headers d = Some h ->
  completion (Parse json_Unmarshal zeroMessage d now) = Returns None ->
  let m := message (Parse json_Unmarshal zeroMessage d now) in
  MessageId m <> EmptyString /\
  MessageId m
  = match validMessageId h with
    | Some s => s
    | None =>
        fmt.hex (md5.Sum (amqp.Body d))
        +:+ (if Timestamp m >? 0 then "-" +:+ fmt.decimal (Timestamp m)
             else EmptyString)
    end.
Proof.
  intros T R m.
  destruct (Parse_returns_inv _ _ _ _ R) as (fields & J & U).
  assert (MessageId m
          = match validMessageId h with
            | Some s => s
            | None => computedMessageId (amqp.Body d) (Timestamp m)
            end) as E.
  { subst m. rewrite (Parse_table_MessageId _ _ _ _ _ J U _ T).
    rewrite (Parse_Timestamp _ _ _ _ _ J U). reflexivity. }
  split; [|exact E].
  rewrite E. destruct (validMessageId h) as [s|] eqn:V.
  - exact (validMessageId_nonempty _ _ V).
  - apply computedMessageId_nonempty.
Qed.

(** C4 (as amended).  For every delivery whose body decodes with a non-empty
    [url] and whose redelivery history is absent (no attribute table, or no
    [x-death] entry in it) or is a list with 0, 1, 3 or more entries, [Parse]
    on a fresh message returns no error, does not panic, and leaves both
    [RetryCnt] and [FirstRejectionTime] at 0. *)
Theorem Parse_no_history_defaults (d : amqp.Delivery) (now : Z)
    (fields : MessageFields.t) :
  json_Unmarshal (amqp.Body d) = http.Ok fields ->
  MessageFields.Url fields <> EmptyString ->
  noRetryHistory (amqp.Headers d) = true ->
  let run := Parse json_Unmarshal zeroMessage d now in
  completion run = Returns None /\
  RetryCnt (message run) = 0 /\ FirstRejectionTime (message run) = 0.
Proof.
  intros J U N run. subst run.
  destruct (amqp.Headers d) as [h|] eqn:T.
  - pose proof (noRetryHistory_defaults h N) as G.
    rewrite (Parse_table_completion _ _ _ _ _ J U _ T), G.
    split; [reflexivity|].
    exact (Parse_table_RetryInfo _ _ _ _ _ J U _ T _ _ G).
  - destruct (Parse_nil_table _ zeroMessage _ now _ J U T) as (C & _ & R & F).
    auto.
Qed.

(** C5.  For every delivery whose [x-death] attribute is a list of exactly
    two entries, [Parse] reads the second entry: its [count] becomes
    [RetryCnt] and its [time], as unix seconds, becomes [FirstRejectionTime];
    a [time] that is present but nil gives 0. *)
Theorem Parse_reads_second_entry (msg : HttpRequestMessage)
    (d : amqp.Delivery) (now : Z) (fields : MessageFields.t)
    (h t : amqp.Table) (e0 rejectTime : amqp.value) (count : Z) :
  json_Unmarshal (amqp.Body d) = http.Ok fields ->
  MessageFields.Url fields <> EmptyString ->
  amqp.Headers d = Some h ->
  h !! "x-death" = Some (amqp.VList [e0; amqp.VTable t]) ->
  t !! "count" = Some (amqp.VInt64 count) ->
  t !! "time" = Some rejectTime ->
  timeReadable t = true ->
  let run := Parse json_Unmarshal msg d now in
  completion run = Returns None /\
  RetryCnt (message run) = count /\
  FirstRejectionTime (message run)
  = match rejectTime with
    | amqp.VTime T => time.Unix T
    | _ => 0
    end.
Proof.
  intros J U T X C R TR run. subst run.
  assert (getRetryInfo h = Done (count, match rejectTime with
                                        | amqp.VTime T => time.Unix T
                                        | _ => 0
                                        end)) as G.
  { rewrite (getRetryInfo_second_entry h t e0 X); [|
      unfold countReadable; now rewrite C | exact TR].
    unfold countOf, timeOf. rewrite C, R. reflexivity. }
  rewrite (Parse_table_completion _ _ _ _ _ J U _ T), G.
  split; [reflexivity|].
  exact (Parse_table_RetryInfo _ _ _ _ _ J U _ T _ _ G).
Qed.

(** C6 (as amended).  After every [Parse] on a fresh message that returns no
    error, [RetryCnt] and [FirstRejectionTime] are both 0 unless the
    redelivery history is a list of exactly two entries; then each is read on
    its own from the second entry: [RetryCnt] is its [count], or 0 when it
    has none, and [FirstRejectionTime] is its [time], or 0 when it has none
    or a nil one. *)
Theorem Parse_retry_fields (d : amqp.Delivery) (now : Z) :
  completion (Parse json_Unmarshal zeroMessage d now) = Returns None ->
  let m := message (Parse json_Unmarshal zeroMessage d now) in
  (RetryCnt m, FirstRejectionTime m)
  = match amqp.Headers d ≫= (fun h => h !! "x-death") with
    | Some (amqp.VList [_; amqp.VTable t]) => (countOf t, timeOf t)
    | _ => (0, 0)
    end.
Proof.
  intros R m. subst m.
  destruct (Parse_returns_inv _ _ _ _ R) as (fields & J & U).
  destruct (amqp.Headers d) as [h|] eqn:T; simpl.
  - rewrite (Parse_table_completion _ _ _ _ _ J U _ T) in R.
    destruct (getRetryInfo h) as [[c f]|reason] eqn:G; [|discriminate R].
    destruct (Parse_table_RetryInfo _ zeroMessage _ now _ J U _ T _ _ G)
      as [-> ->].
    exact (getRetryInfo_value h _ G).
  - destruct (Parse_nil_table _ zeroMessage _ now _ J U T) as (_ & _ & -> & ->).
    reflexivity.
Qed.

(** C7 (as amended).  For every delivery whose body decodes with a non-empty
    [url], that carries an attribute table without a valid [message_id] and
    with a redelivery history [getRetryInfo] reads to the end, [Parse] on a
    fresh message returns no error, and the Message ID is a function of the
    raw body bytes and the creation time alone: two such deliveries with the
    same body and the same creation time get the same Message ID, whatever
    else they carry and whenever they are parsed. *)
Theorem Parse_MessageId_deterministic (d1 d2 : amqp.Delivery) (now1 now2 : Z)
    (fields : MessageFields.t) (h1 h2 : amqp.Table) :
  amqp.Body d1 = amqp.Body d2 ->
  amqp.Timestamp d1 = amqp.Timestamp d2 ->
  json_Unmarshal (amqp.Body d1) = http.Ok fields ->
  MessageFields.Url fields <> EmptyString ->
  amqp.Headers d1 = Some h1 -> amqp.Headers d2 = Some h2 ->
  validMessageId h1 = None -> validMessageId h2 = None ->
  readableHistory h1 = true -> readableHistory h2 = true ->
  let run1 := Parse json_Unmarshal zeroMessage d1 now1 in
  let run2 := Parse json_Unmarshal zeroMessage d2 now2 in
  completion run1 = Returns None /\ completion run2 = Returns None /\
  MessageId (message run1) = MessageId (message run2) /\
  MessageId (message run1)
  = computedMessageId (amqp.Body d1) (Timestamp (message run1)).
Proof.
  intros B TS J1 U T1 T2 V1 V2 R1 R2 run1 run2. subst run1 run2.
  assert (json_Unmarshal (amqp.Body d2) = http.Ok fields) as J2
    by (rewrite <- B; exact J1).
  apply getRetryInfo_returns_iff in R1, R2.
  destruct R1 as [r1 G1], R2 as [r2 G2].
  rewrite (Parse_table_completion _ _ _ _ _ J1 U _ T1), G1.
  rewrite (Parse_table_completion _ _ _ _ _ J2 U _ T2), G2.
  rewrite (Parse_table_MessageId _ _ _ _ _ J1 U _ T1), V1.
  rewrite (Parse_table_MessageId _ _ _ _ _ J2 U _ T2), V2.
  rewrite (Parse_Timestamp _ _ _ _ _ J1 U).
  unfold createdAt. rewrite B, TS. simpl. auto.
Qed.

(** C8.  For every decoded [headers] sequence, [Parse] flattens it into one
    map in which every key holds the value of its last occurrence in the
    order of the sequence. *)
Theorem Parse_flattens_last_wins (msg : HttpRequestMessage)
    (d : amqp.Delivery) (now : Z) (fields : MessageFields.t) (key : string) :
  json_Unmarshal (amqp.Body d) = http.Ok fields ->
  MessageFields.Url fields <> EmptyString ->
  Headers (message (Parse json_Unmarshal msg d now)) !! key
  = lastOccurrence (MessageFields.Headers fields) key.
Proof.
  intros J U. rewrite (Parse_Headers _ _ _ _ _ J U).
  apply flattenHeaders_lookup.
Qed.

End ParseClaims.

(** * [HttpPost]: one attempt, one outcome *)

Section DispatchClaims.

Variables (net : http.Stack) (msg : HttpRequestMessage).
Variables (ackCh : list HttpRequestMessage) (timeout : Z).

(** C1.  The disposition of a dispatch follows a fixed precedence: a request
    that cannot be built is dropped, with the construction error recorded;
    otherwise a transport error makes the message retry-eligible, with the
    error recorded; otherwise the status code decides: 400-499 is dropped
    with an error, 200-299 is accepted with no error, any other status is
    retry-eligible with an error that carries the status text.  The message
    dispatched is one whose [HttpErr] and [Drop] are still unset. *)
Theorem HttpPost_disposition :
  HttpErr msg = None -> Drop msg = false ->
  exists out,
    HttpPost net msg ackCh timeout = ackCh ++ [out] /\
    match http.NewRequest net "POST" (Url msg) (Body msg) with
    | http.Err err => disposition out = Dropped /\ HttpErr out = Some err
    | http.Ok req =>
        match http.Do net (sentClient timeout) (sentRequest net msg req) with
        | http.Err err =>
            disposition out = RetryEligible /\ HttpErr out = Some err
        | http.Ok resp =>
            disposition out = classifyStatus (http.StatusCode resp) /\
            HttpErr out
            = match classifyStatus (http.StatusCode resp) with
              | Dropped =>
                  Some (errors.New ("4XX status on http POST (no retry): "
                                    +:+ http.Status resp))
              | Accepted => None
              | RetryEligible =>
                  Some (errors.New ("Error on http POST: "
                                    +:+ http.Status resp))
              end
        end
    end.
Proof.
  intros E D. unfold HttpPost, sentClient, sentRequest, classifyStatus.
  destruct (http.NewRequest net "POST" (Url msg) (Body msg)) as [req|err].
  2: { eexists. split; [reflexivity|]. split; reflexivity. }
  destruct (http.Do net _ _) as [resp|err].
  2: { eexists. split; [reflexivity|].
       unfold disposition. simpl. rewrite D. split; reflexivity. }
  rewrite !Z.geb_leb.
  destruct ((400 <=? http.StatusCode resp) && (http.StatusCode resp <=? 499)).
  { eexists. split; [reflexivity|]. split; reflexivity. }
  destruct ((200 <=? http.StatusCode resp) && (http.StatusCode resp <=? 299)).
  - eexists. split; [reflexivity|]. unfold disposition.
    destruct (http.ReadAll resp); simpl; rewrite E; split; reflexivity.
  - eexists. split; [reflexivity|]. unfold disposition.
    destruct (http.ReadAll resp); simpl; rewrite D; split; reflexivity.
Qed.

(** C2.  Every call of [HttpPost] sends exactly one message on the channel,
    on every path, and leaves what was sent before in place; the method has
    no other result, and the error of a failed construction or of a failed
    transport is the one recorded in the message sent. *)
Theorem HttpPost_sends_exactly_one :
  exists out,
    HttpPost net msg ackCh timeout = ackCh ++ [out] /\
    length (HttpPost net msg ackCh timeout) = S (length ackCh) /\
    match http.NewRequest net "POST" (Url msg) (Body msg) with
    | http.Err err => HttpErr out = Some err
    | http.Ok req =>
        match http.Do net (sentClient timeout) (sentRequest net msg req) with
        | http.Err err => HttpErr out = Some err
        | http.Ok _ => True
        end
    end.
Proof.
  unfold HttpPost, sentClient, sentRequest.
  destruct (http.NewRequest net "POST" (Url msg) (Body msg)) as [req|err].
  2: { eexists. rewrite length_app, Nat.add_1_r. repeat split. }
  destruct (http.Do net _ _) as [resp|err].
  2: { eexists. rewrite length_app, Nat.add_1_r. repeat split. }
  destruct (_ && _).
  { eexists. rewrite length_app, Nat.add_1_r. repeat split. }
  destruct (_ && _);
    eexists; rewrite length_app, Nat.add_1_r; repeat split.
Qed.

(** The message sent is the one received with other outcome fields:
    [HttpStatusMsg], [HttpRespBody], [HttpErr] and [Drop] are the only fields
    [HttpPost] assigns. *)
Lemma HttpPost_frame :
  exists out,
    HttpPost net msg ackCh timeout = ackCh ++ [out] /\ sameRequest msg out.
Proof.
  unfold HttpPost, sameRequest.
  destruct (http.NewRequest net "POST" (Url msg) (Body msg)) as [req|err].
  2: { eexists. split; reflexivity. }
  destruct (http.Do net _ _) as [resp|err].
  2: { eexists. split; reflexivity. }
  destruct (_ && _).
  { eexists. split; [reflexivity|]. destruct (http.ReadAll resp); reflexivity. }
  destruct (_ && _);
    eexists; (split; [reflexivity|]); destruct (http.ReadAll resp); reflexivity.
Qed.

(** C10.  When a response is received and reading its body fails, the
    message sent has the sentinel text as [HttpRespBody], its
    [HttpStatusMsg] is still the empty string (the status line received is
    not recorded), and the classification proceeds on the status code
    received. *)
Theorem HttpPost_body_read_failure (req : http.Request)
    (resp : http.Response) (e : errors.error) :
  undispatched msg ->
  http.NewRequest net "POST" (Url msg) (Body msg) = http.Ok req ->
  http.Do net (sentClient timeout) (sentRequest net msg req) = http.Ok resp ->
  http.ReadAll resp = http.Err e ->
  exists out,
    HttpPost net msg ackCh timeout = ackCh ++ [out] /\
    HttpRespBody out = "Error encountered when reading POST response body" /\
    HttpStatusMsg out = EmptyString /\
    disposition out = classifyStatus (http.StatusCode resp).
Proof.
  intros (S & _ & E & D) N T R.
  unfold HttpPost, classifyStatus. rewrite N.
  unfold sentClient, sentRequest in T. rewrite T, R.
  rewrite !Z.geb_leb.
  destruct ((400 <=? http.StatusCode resp) && (http.StatusCode resp <=? 499)).
  { eexists. split; [reflexivity|]. simpl. auto. }
  destruct ((200 <=? http.StatusCode resp) && (http.StatusCode resp <=? 299));
    eexists; (split; [reflexivity|]); unfold disposition; simpl;
    rewrite ?E, ?D; auto.
Qed.

End DispatchClaims.

(** * The sample envelopes *)

(** The sample body, delivered with an empty attribute table and a creation
    time: the Message ID is the checksum of the body and the time. *)
Example Parse_sample_MessageId :
  let d := sampleDelivery (Some ∅) sampleTime in
  let m := message (Parse sampleUnmarshal zeroMessage d 1600000000) in
  completion (Parse sampleUnmarshal zeroMessage d 1600000000) = Returns None /\
  MessageId m <> EmptyString /\
  MessageId m = "a0996e9a0b8bd5830dc1550afd914ffd-1500000000".
Proof.
  intros d m.
  assert (completion (Parse sampleUnmarshal zeroMessage d 1600000000)
          = Returns None) as R by (vm_compute; reflexivity).
  destruct (Parse_MessageId_populated sampleUnmarshal d 1600000000 ∅
              eq_refl R) as [N E].
  split; [exact R|]. split; [exact N|].
  vm_compute. reflexivity.
Defined.

(** The time is appended when it is greater than zero: a delivery created
    before 1970 has a creation time that is not zero, and its Message ID is
    the checksum alone. *)
Example Parse_MessageId_negative_creation_time :
  let d := sampleDelivery (Some ∅) (time.FromUnix (-5) 0) in
  let run := Parse sampleUnmarshal zeroMessage d 1600000000 in
  completion run = Returns None /\
  Timestamp (message run) = -5 /\
  MessageId (message run) = fmt.hex (md5.Sum (amqp.Body d)).
Proof.
  vm_compute. repeat split.
Qed.

(** C3.  The claim is that after every [Parse] that returns no error the
    Message ID is not empty, the MD5 hex digest of the raw body (with the
    creation time appended) standing in for a missing [message_id].  The code
    does not do so for a delivery without an attribute table (a message
    published without headers): the block that computes the Message ID is
    inside the test [rmqHeaders != nil] and is not reached, [Parse] returns
    no error, and the Message ID of a fresh message stays empty, where the
    digest would have been [a0996e9a0b8bd5830dc1550afd914ffd-1500000000]. *)
Theorem Parse_nil_table_MessageId_empty :
  let d := sampleDelivery None sampleTime in
  let run := Parse sampleUnmarshal zeroMessage d 1600000000 in
  amqp.Headers d = None /\
  completion run = Returns None /\
  Url (message run) = "http://x/y" /\
  Timestamp (message run) = 1500000000 /\
  MessageId (message run) = EmptyString /\
  computedMessageId (amqp.Body d) (Timestamp (message run))
  = "a0996e9a0b8bd5830dc1550afd914ffd-1500000000".
Proof. vm_compute. repeat split. Qed.

(** An [expiration] in the past and an empty [message_id] are both ignored
    with a warning: the expiration stays 0 and the Message ID is computed. *)
Example Parse_warnings :
  let h : amqp.Table :=
    {[ "expiration" := amqp.VInt64 1500000000;
       "message_id" := amqp.VString EmptyString ]} in
  let run := Parse sampleUnmarshal zeroMessage
               (sampleDelivery (Some h) time.zero) 1600000000 in
  completion run = Returns None /\
  take 2 (logged run)
  = [LogWrite expirationWarning; LogWrite messageIdWarning] /\
  Expiration (message run) = 0 /\
  MessageId (message run) = "a0996e9a0b8bd5830dc1550afd914ffd".
Proof. vm_compute. repeat split. Qed.

(** A history with one entry only. *)
Lemma Parse_no_history_defaults_witness :
  let d := sampleDelivery
             (Some {[ "x-death" := amqp.VList [sampleEntry] ]}) sampleTime in
  let run := Parse sampleUnmarshal zeroMessage d 1600000000 in
  noRetryHistory (amqp.Headers d) = true /\
  completion run = Returns None /\
  RetryCnt (message run) = 0 /\ FirstRejectionTime (message run) = 0.
Proof.
  intros d run.
  assert (noRetryHistory (amqp.Headers d) = true) as N
    by (vm_compute; reflexivity).
  split; [exact N|].
  apply (Parse_no_history_defaults sampleUnmarshal d 1600000000 sampleFields).
  - vm_compute; reflexivity.
  - discriminate.
  - exact N.
Defined.

(** C4, as stated, fails in both ways.  A two-entry history whose first entry
    is a string is not a list of two well-formed entries, and its second
    entry is read all the same; a history that is a string makes [Parse]
    panic. *)
Lemma Parse_malformed_history :
  let run h := Parse sampleUnmarshal zeroMessage
                 (sampleDelivery (Some h) sampleTime) 1600000000 in
  let first_is_string : amqp.Table :=
    {[ "x-death" := amqp.VList [amqp.VString "junk"; sampleEntry] ]} in
  let not_a_list : amqp.Table := {[ "x-death" := amqp.VString "junk" ]} in
  (completion (run first_is_string) = Returns None /\
   RetryCnt (message (run first_is_string)) = 3 /\
   FirstRejectionTime (message (run first_is_string)) = 1500000000) /\
  completion (run not_a_list)
  = Panics "interface conversion: interface {} is string, not []interface {}".
Proof.
  vm_compute. repeat split.
Qed.

(** The history RabbitMQ writes: two maps, the second one for the main
    queue, with a count of 3. *)
Lemma Parse_reads_second_entry_witness :
  let h : amqp.Table :=
    {[ "x-death" := amqp.VList [amqp.VTable ∅; sampleEntry] ]} in
  let run := Parse sampleUnmarshal zeroMessage
               (sampleDelivery (Some h) sampleTime) 1600000000 in
  completion run = Returns None /\
  RetryCnt (message run) = 3 /\
  FirstRejectionTime (message run) = 1500000000.
Proof.
  intros h run.
  assert (FirstRejectionTime (message run) = 1500000000
          <-> FirstRejectionTime (message run) = time.Unix sampleTime) as F
    by (vm_compute; tauto).
  rewrite F.
  apply (Parse_reads_second_entry sampleUnmarshal zeroMessage
           (sampleDelivery (Some h) sampleTime) 1600000000 sampleFields h
           {[ "count" := amqp.VInt64 3; "time" := amqp.VTime sampleTime ]}
           (amqp.VTable ∅) (amqp.VTime sampleTime) 3).
  - vm_compute; reflexivity.
  - discriminate.
  - reflexivity.
  - vm_compute; reflexivity.
  - vm_compute; reflexivity.
  - vm_compute; reflexivity.
  - vm_compute; reflexivity.
Defined.

Lemma Parse_retry_fields_witness :
  let h : amqp.Table :=
    {[ "x-death" := amqp.VList [amqp.VTable ∅; sampleEntry] ]} in
  let d := sampleDelivery (Some h) sampleTime in
  let m := message (Parse sampleUnmarshal zeroMessage d 1600000000) in
  completion (Parse sampleUnmarshal zeroMessage d 1600000000) = Returns None /\
  (RetryCnt m, FirstRejectionTime m) = (3, 1500000000).
Proof.
  intros h d m.
  assert (completion (Parse sampleUnmarshal zeroMessage d 1600000000)
          = Returns None) as R by (vm_compute; reflexivity).
  split; [exact R|].
  pose proof (Parse_retry_fields sampleUnmarshal d 1600000000 R) as E.
  cbv zeta in E. fold m in E. rewrite E. vm_compute. reflexivity.
Defined.

(** C6, as stated, fails: a second entry with a [count] and no [time] leaves
    the retry count read and the rejection time at its default, and a second
    entry with a [time] and no [count] does the opposite. *)
Lemma Parse_partial_retry_fields :
  let run t := Parse sampleUnmarshal zeroMessage
                 (sampleDelivery
                    (Some {[ "x-death" := amqp.VList [sampleEntry; amqp.VTable t] ]})
                    sampleTime) 1600000000 in
  let count_only : amqp.Table := {[ "count" := amqp.VInt64 3 ]} in
  let time_only : amqp.Table := {[ "time" := amqp.VTime sampleTime ]} in
  (completion (run count_only) = Returns None /\
   RetryCnt (message (run count_only)) = 3 /\
   FirstRejectionTime (message (run count_only)) = 0) /\
  (completion (run time_only) = Returns None /\
   RetryCnt (message (run time_only)) = 0 /\
   FirstRejectionTime (message (run time_only)) = 1500000000).
Proof.
  vm_compute. repeat split.
Qed.

(** Two deliveries of the sample body created at the same time, one of them
    redelivered with an expiration and a retry history, parsed at different
    times. *)
Lemma Parse_MessageId_deterministic_witness :
  let h2 : amqp.Table :=
    {[ "expiration" := amqp.VInt64 1700000000;
       "x-death" := amqp.VList [amqp.VTable ∅; sampleEntry] ]} in
  let run1 := Parse sampleUnmarshal zeroMessage
                (sampleDelivery (Some ∅) sampleTime) 1600000000 in
  let run2 := Parse sampleUnmarshal zeroMessage
                (sampleDelivery (Some h2) sampleTime) 1600000300 in
  completion run1 = Returns None /\ completion run2 = Returns None /\
  MessageId (message run1) = MessageId (message run2) /\
  MessageId (message run1)
  = computedMessageId sampleBody (Timestamp (message run1)).
Proof.
  intros h2.
  apply (Parse_MessageId_deterministic sampleUnmarshal
           (sampleDelivery (Some ∅) sampleTime)
           (sampleDelivery (Some h2) sampleTime)
           1600000000 1600000300 sampleFields ∅ h2).
  - reflexivity.
  - reflexivity.
  - vm_compute; reflexivity.
  - discriminate.
  - reflexivity.
  - reflexivity.
  - vm_compute; reflexivity.
  - vm_compute; reflexivity.
  - vm_compute; reflexivity.
  - vm_compute; reflexivity.
Defined.

(** C7, as stated, fails: two deliveries with the same body and the same
    creation time whose [message_id] attributes differ get different
    Message IDs. *)
Lemma Parse_MessageId_follows_attribute :
  let d1 := sampleDelivery
              (Some {[ "message_id" := amqp.VString "order-1" ]}) sampleTime in
  let d2 := sampleDelivery
              (Some {[ "message_id" := amqp.VString "order-2" ]}) sampleTime in
  let run1 := Parse sampleUnmarshal zeroMessage d1 1600000000 in
  let run2 := Parse sampleUnmarshal zeroMessage d2 1600000000 in
  amqp.Body d1 = amqp.Body d2 /\ amqp.Timestamp d1 = amqp.Timestamp d2 /\
  completion run1 = Returns None /\ completion run2 = Returns None /\
  MessageId (message run1) = "order-1" /\
  MessageId (message run2) = "order-2" /\
  MessageId (message run1) <> MessageId (message run2).
Proof.
  vm_compute. repeat split; discriminate.
Qed.

(** The header sequence [{"A":"1"},{"A":"2"}] gives a map with [A] = 2. *)
Lemma Parse_flattens_last_wins_witness :
  MessageFields.Headers sampleFields = [ {["A" := "1"]}; {["A" := "2"]} ] /\
  Headers (message (Parse sampleUnmarshal zeroMessage
                      (sampleDelivery None time.zero) 0)) !! "A"
  = Some "2".
Proof.
  split; [reflexivity|].
  rewrite (Parse_flattens_last_wins sampleUnmarshal zeroMessage
             (sampleDelivery None time.zero) 0 sampleFields "A").
  - vm_compute; reflexivity.
  - vm_compute; reflexivity.
  - discriminate.
Defined.

(** A dispatch to the sample server that answers 201. *)
Lemma HttpPost_disposition_witness :
  exists out,
    HttpPost sampleStack (sampleMessage "http://x/y") [] 30 = [out] /\
    disposition out = Accepted /\ HttpErr out = None.
Proof.
  destruct (HttpPost_disposition sampleStack (sampleMessage "http://x/y")
              [] 30 eq_refl eq_refl) as (out & P & C).
  exists out. split; [exact P|]. exact C.
Defined.

(** A dispatch to the sample server that answers 200 and breaks off. *)
Lemma HttpPost_body_read_failure_witness :
  exists out,
    HttpPost sampleStack (sampleMessage "http://x/cut") [] 30 = [out] /\
    HttpRespBody out = "Error encountered when reading POST response body" /\
    HttpStatusMsg out = EmptyString /\
    disposition out = Accepted.
Proof.
  apply (HttpPost_body_read_failure sampleStack (sampleMessage "http://x/cut")
           [] 30
           (http.mkRequest "POST" "http://x/cut" "payload" ∅)
           (http.mkResponse "200 OK" 200 (http.Err (errors.New "unexpected EOF")))
           (errors.New "unexpected EOF")).
  - repeat split.
  - reflexivity.
  - vm_compute; reflexivity.
  - reflexivity.
Defined.

(** * [Parse] in closed form *)

Lemma parseExpiration_closed (h : amqp.Table) (now : Z)
    (m : HttpRequestMessage) :
  parseExpiration h now m
  = (set_Expiration (acceptedExpiration h now (Expiration m)) m,
     if expirationWarned h now then [LogWrite expirationWarning] else []).
Proof.
  unfold parseExpiration, acceptedExpiration, expirationWarned,
    validExpiration.
  destruct m. destruct (h !! "expiration") as [[]|];
    try destruct (_ <? _); reflexivity.
Qed.

Lemma parseMessageId_closed (h : amqp.Table) (m : HttpRequestMessage) :
  parseMessageId h m
  = (match validMessageId h with
     | Some s => set_MessageId s m
     | None => m
     end,
     if messageIdWarned h then [LogWrite messageIdWarning] else []).
Proof.
  unfold parseMessageId, messageIdWarned, validMessageId.
  destruct (h !! "message_id") as [[]|];
    try destruct (_ =? _)%nat; reflexivity.
Qed.

Lemma defaultMessageId_closed (body : list byte) (m : HttpRequestMessage) :
  defaultMessageId body m
  = set_MessageId
      (if (String.length (MessageId m) =? 0)%nat
       then computedMessageId body (Timestamp m)
       else MessageId m) m.
Proof.
  destruct (MessageId m) as [|c s] eqn:E.
  - rewrite (defaultMessageId_computed _ _ E). reflexivity.
  - rewrite defaultMessageId_provided by (rewrite E; discriminate).
    simpl. destruct m. simpl in E. rewrite E. reflexivity.
Qed.

Lemma decodedMessage_Timestamp (msg : HttpRequestMessage)
    (d : amqp.Delivery) (fields : MessageFields.t) :
  Timestamp (decodedMessage msg d fields) = createdAt msg d.
Proof.
  unfold decodedMessage, createdAt.
  destruct (time.IsZero (amqp.Timestamp d)); reflexivity.
Qed.

Section ParseClosedForm.

Variable json_Unmarshal : list byte -> http.result MessageFields.t.
Variables (msg : HttpRequestMessage) (d : amqp.Delivery) (now : Z).
Variable fields : MessageFields.t.
Hypothesis decoded : json_Unmarshal (amqp.Body d) = http.Ok fields.
Hypothesis has_url : MessageFields.Url fields <> EmptyString.

(** The message a table [h] leaves, before the retry fields are assigned. *)
Lemma Parse_closed :
  Parse json_Unmarshal msg d now
  = match amqp.Headers d with
    | None => parsed (decodedMessage msg d fields) []
    | Some h =>
        let m :=
          set_MessageId
            (chosenMessageId h (amqp.Body d) (MessageId msg) (createdAt msg d))
            (set_Expiration (acceptedExpiration h now (Expiration msg))
               (decodedMessage msg d fields)) in
        match getRetryInfo h with
        | Panic reason => mkRun m (warnings h now) (Panics reason)
        | Done (c, f) => parsed (set_RetryInfo c f m) (warnings h now)
        end
    end.
Proof.
  unfold Parse. rewrite decoded, (nonempty_length _ has_url).
  fold (decodedMessage msg d fields).
  destruct (amqp.Headers d) as [h|]; [|reflexivity].
  rewrite parseExpiration_closed, parseMessageId_closed.
  rewrite defaultMessageId_closed. cbv zeta.
  assert (Expiration (decodedMessage msg d fields) = Expiration msg /\
          MessageId (decodedMessage msg d fields) = MessageId msg) as [X I].
  { unfold decodedMessage. destruct (time.IsZero _); split; reflexivity. }
  unfold warnings, chosenMessageId.
  destruct (validMessageId h) as [s|] eqn:V; simpl.
  - rewrite (nonempty_length _ (validMessageId_nonempty _ _ V)), X.
    destruct (getRetryInfo h) as [[c f]|r]; reflexivity.
  - rewrite X, I, decodedMessage_Timestamp.
    destruct (getRetryInfo h) as [[c f]|r]; reflexivity.
Qed.

End ParseClosedForm.

(** * [Parse]: errors, frame and reuse of the receiver *)

Lemma decimal_inj (a b : Z) : fmt.decimal a = fmt.decimal b -> a = b.
Proof.
  unfold fmt.decimal. intros E.
  apply DecimalZ.to_int_inj.
  assert (forall z, NilZero.int_of_string (NilZero.string_of_int (Z.to_int z))
                    = Some (Z.to_int z)) as R.
  { intros z. apply NilZero.isi; destruct z; simpl; try discriminate;
      intros [= N]; exact (DecimalPos.Unsigned.to_uint_nonnil _ N). }
  apply (f_equal NilZero.int_of_string) in E.
  rewrite !R in E. now injection E.
Qed.

Lemma append_cancel_l (s a b : string) : s +:+ a = s +:+ b -> a = b.
Proof.
  induction s as [|c s IH]; [trivial|].
  change (String c (s +:+ a) = String c (s +:+ b) -> a = b).
  intros [= E]. exact (IH E).
Qed.

(** For one body, the computed identifier tells positive creation times
    apart. *)
Lemma computedMessageId_inj (body : list byte) (t1 t2 : Z) :
  0 < t1 -> t1 <> t2 ->
  computedMessageId body t1 <> computedMessageId body t2.
Proof.
  intros P N E. unfold computedMessageId in E.
  apply append_cancel_l in E.
  destruct (Z.gtb_spec t1 0); [|lia].
  destruct (t2 >? 0); [|discriminate E].
  apply (append_cancel_l "-") in E. apply decimal_inj in E. contradiction.
Qed.

Lemma acceptedExpiration_not_past (h : amqp.Table) (now : Z) :
  acceptedExpiration h now 0 = 0 \/ now <= acceptedExpiration h now 0.
Proof.
  unfold acceptedExpiration, validExpiration.
  destruct (h !! "expiration") as [[]|]; auto.
  destruct (Z.ltb_spec n now); auto.
Qed.

Lemma acceptedExpiration_idem (h : amqp.Table) (now old : Z) :
  acceptedExpiration h now (acceptedExpiration h now old)
  = acceptedExpiration h now old.
Proof.
  unfold acceptedExpiration. destruct (validExpiration h now); reflexivity.
Qed.

Lemma chosenMessageId_nonempty (h : amqp.Table) (body : list byte)
    (old : string) (created : Z) :
  chosenMessageId h body old created <> EmptyString.
Proof.
  unfold chosenMessageId. destruct (validMessageId h) as [s|] eqn:V.
  - exact (validMessageId_nonempty _ _ V).
  - destruct old; simpl; [apply computedMessageId_nonempty | discriminate].
Qed.

Lemma chosenMessageId_idem (h : amqp.Table) (body : list byte)
    (old : string) (c1 c2 : Z) :
  chosenMessageId h body (chosenMessageId h body old c1) c2
  = chosenMessageId h body old c1.
Proof.
  pose proof (chosenMessageId_nonempty h body old c1) as N.
  unfold chosenMessageId in *. destruct (validMessageId h); [reflexivity|].
  now rewrite (nonempty_length _ N).
Qed.

Section ParseFurther.

Variable json_Unmarshal : list byte -> http.result MessageFields.t.

(** How the call ends once the body is decoded and has a [url]. *)
Lemma Parse_decoded_completion (msg : HttpRequestMessage)
    (d : amqp.Delivery) (now : Z) (fields : MessageFields.t) :
  json_Unmarshal (amqp.Body d) = http.Ok fields ->
  MessageFields.Url fields <> EmptyString ->
  completion (Parse json_Unmarshal msg d now)
  = match amqp.Headers d with
    | None => Returns None
    | Some h =>
        match getRetryInfo h with
        | Done _ => Returns None
        | Panic reason => Panics reason
        end
    end.
Proof.
  intros J U. rewrite (Parse_closed _ _ _ _ _ J U).
  destruct (amqp.Headers d) as [h|]; [|reflexivity].
  destruct (getRetryInfo h) as [[c f]|r]; reflexivity.
Qed.

(** [Parse] returns an error in two cases only: the body does not decode, and
    the error is the decoder's; or the decoded [url] is empty, and the error
    is the one [Parse] makes. *)
Theorem Parse_returns_error_iff (msg : HttpRequestMessage)
    (d : amqp.Delivery) (now : Z) (e : errors.error) :
  completion (Parse json_Unmarshal msg d now) = Returns (Some e) <->
  json_Unmarshal (amqp.Body d) = http.Err e \/
  exists fields,
    json_Unmarshal (amqp.Body d) = http.Ok fields /\
    MessageFields.Url fields = EmptyString /\
    e = errors.New "Field 'url' is empty or missing".
Proof.
  destruct (json_Unmarshal (amqp.Body d)) as [fields|e0] eqn:J.
  - destruct (MessageFields.Url fields) as [|c u] eqn:U.
    + unfold Parse. rewrite J, U. simpl. split.
      * intros [= <-]. right. exists fields. auto.
      * intros [[=]|(f & [= <-] & _ & ->)]. reflexivity.
    + assert (MessageFields.Url fields <> EmptyString) as N
        by (rewrite U; discriminate).
      rewrite (Parse_decoded_completion _ _ _ _ J N). split.
      * destruct (amqp.Headers d) as [h|]; [|discriminate].
        destruct (getRetryInfo h); discriminate.
      * intros [[=]|(f & [= <-] & E & _)]. rewrite U in E. discriminate E.
  - unfold Parse. rewrite J. simpl. split.
    + intros [= <-]. now left.
    + intros [[= <-]|(f & [=] & _)]. reflexivity.
Qed.

(** When [Parse] returns an error, the receiver has been assigned the
    delivery and nothing else, and nothing was logged. *)
Theorem Parse_error_leaves_receiver (msg : HttpRequestMessage)
    (d : amqp.Delivery) (now : Z) (e : errors.error) :
  completion (Parse json_Unmarshal msg d now) = Returns (Some e) ->
  message (Parse json_Unmarshal msg d now) = set_Delivery d msg /\
  logged (Parse json_Unmarshal msg d now) = [].
Proof.
  intros R.
  destruct (json_Unmarshal (amqp.Body d)) as [fields|e0] eqn:J.
  - destruct (MessageFields.Url fields) as [|c u] eqn:U.
    + unfold Parse. rewrite J, U. split; reflexivity.
    + assert (MessageFields.Url fields <> EmptyString) as N
        by (rewrite U; discriminate).
      rewrite (Parse_decoded_completion _ _ _ _ J N) in R.
      destruct (amqp.Headers d) as [h|]; [|discriminate R].
      destruct (getRetryInfo h); discriminate R.
  - unfold Parse. rewrite J. split; reflexivity.
Qed.

(** After a [Parse] that returns no error, the message holds the delivery,
    the decoded [url], which is not empty, and the decoded [body]; its
    [Timestamp] is the unix time of the delivery's timestamp, or what the
    receiver had when the delivery has none. *)
Theorem Parse_copies_request (msg : HttpRequestMessage) (d : amqp.Delivery)
    (now : Z) :
  completion (Parse json_Unmarshal msg d now) = Returns None ->
  let m := message (Parse json_Unmarshal msg d now) in
  exists fields,
    json_Unmarshal (amqp.Body d) = http.Ok fields /\
    Delivery m = d /\
    Url m = MessageFields.Url fields /\ Url m <> EmptyString /\
    Body m = MessageFields.Body fields /\
    Timestamp m
    = if time.IsZero (amqp.Timestamp d) then Timestamp msg
      else time.Unix (amqp.Timestamp d).
Proof.
  intros R m. subst m.
  destruct (Parse_returns_inv _ _ _ _ R) as (fields & J & U).
  exists fields. split; [exact J|].
  rewrite (Parse_closed _ _ _ _ _ J U). unfold decodedMessage.
  destruct (amqp.Headers d) as [h|]; cbv zeta.
  - destruct (getRetryInfo h) as [[c f]|r]; simpl;
      destruct (time.IsZero _); simpl; auto.
  - destruct (time.IsZero _); simpl; auto.
Qed.

(** [Parse] never leaves an expiration that is already past: on a fresh
    message, on every path, [Expiration] is 0 or not before [now]. *)
Theorem Parse_expiration_not_past (d : amqp.Delivery) (now : Z) :
  let m := message (Parse json_Unmarshal zeroMessage d now) in
  Expiration m = 0 \/ now <= Expiration m.
Proof.
  cbv zeta.
  destruct (json_Unmarshal (amqp.Body d)) as [fields|e0] eqn:J.
  - destruct (MessageFields.Url fields) as [|c u] eqn:U.
    + unfold Parse. rewrite J, U. left. reflexivity.
    + assert (MessageFields.Url fields <> EmptyString) as N
        by (rewrite U; discriminate).
      rewrite (Parse_closed _ _ _ _ _ J N). unfold decodedMessage.
      destruct (amqp.Headers d) as [h|]; cbv zeta.
      * pose proof (acceptedExpiration_not_past h now) as A.
        destruct (getRetryInfo h) as [[c0 f]|r]; simpl; exact A.
      * destruct (time.IsZero _); left; reflexivity.
  - unfold Parse. rewrite J. left. reflexivity.
Qed.

(** An [expiration] attribute that is an [int64] not before [now] (the very
    second [now] included) becomes the [Expiration] of the message, whatever
    the receiver held. *)
Theorem Parse_expiration_accepted (msg : HttpRequestMessage)
    (d : amqp.Delivery) (now : Z) (fields : MessageFields.t)
    (h : amqp.Table) (e : Z) :
  json_Unmarshal (amqp.Body d) = http.Ok fields ->
  MessageFields.Url fields <> EmptyString ->
  amqp.Headers d = Some h ->
  h !! "expiration" = Some (amqp.VInt64 e) ->
  now <= e ->
  Expiration (message (Parse json_Unmarshal msg d now)) = e.
Proof.
  intros J U T X L. rewrite (Parse_closed _ _ _ _ _ J U), T. cbv zeta.
  assert (acceptedExpiration h now (Expiration msg) = e) as A.
  { unfold acceptedExpiration, validExpiration. rewrite X.
    destruct (Z.ltb_spec e now); [lia | reflexivity]. }
  destruct (getRetryInfo h) as [[c f]|r]; simpl; exact A.
Qed.

(** What is logged by a call that returns no error on a delivery with a
    table: a warning for an [expiration] that is present and not used, a
    warning for a [message_id] that is present and not used, then the three
    debug lines, which report the message as the call leaves it. *)
Theorem Parse_logged (msg : HttpRequestMessage) (d : amqp.Delivery)
    (now : Z) (h : amqp.Table) :
  amqp.Headers d = Some h ->
  completion (Parse json_Unmarshal msg d now) = Returns None ->
  let run := Parse json_Unmarshal msg d now in
  logged run
  = (if expirationWarned h now then [LogWrite expirationWarning] else [])
    ++ (if messageIdWarned h then [LogWrite messageIdWarning] else [])
    ++ [ LogDebugMessage "Message fields:" (message run);
         LogDebugInt "Retry:" (RetryCnt (message run));
         LogDebugInt "First Rejection Time:"
           (FirstRejectionTime (message run)) ].
Proof.
  intros T R run. subst run.
  destruct (Parse_returns_inv _ _ _ _ R) as (fields & J & U).
  rewrite (Parse_closed _ _ _ _ _ J U), T in R |- *. cbv zeta in *.
  destruct (getRetryInfo h) as [[c f]|r]; [|discriminate R].
  unfold parsed, warnings. simpl. now rewrite <- app_assoc.
Qed.

(** A receiver that already holds a Message ID keeps it when the delivery
    brings no valid [message_id]: nothing is computed from the new body. *)
Theorem Parse_keeps_receiver_MessageId (msg : HttpRequestMessage)
    (d : amqp.Delivery) (now : Z) (fields : MessageFields.t)
    (h : amqp.Table) :
  json_Unmarshal (amqp.Body d) = http.Ok fields ->
  MessageFields.Url fields <> EmptyString ->
  amqp.Headers d = Some h ->
  validMessageId h = None ->
  MessageId msg <> EmptyString ->
  MessageId (message (Parse json_Unmarshal msg d now)) = MessageId msg.
Proof.
  intros J U T V N. rewrite (Parse_table_MessageId _ _ _ _ _ J U _ T), V.
  now rewrite (nonempty_length _ N).
Qed.

(** On a delivery without an attribute table [Parse] returns no error and
    assigns none of the fields read from the table: the Message ID, the
    expiration and the retry fields are those the receiver held. *)
Theorem Parse_without_table_keeps_receiver (msg : HttpRequestMessage)
    (d : amqp.Delivery) (now : Z) (fields : MessageFields.t) :
  json_Unmarshal (amqp.Body d) = http.Ok fields ->
  MessageFields.Url fields <> EmptyString ->
  amqp.Headers d = None ->
  let run := Parse json_Unmarshal msg d now in
  completion run = Returns None /\
  MessageId (message run) = MessageId msg /\
  Expiration (message run) = Expiration msg /\
  RetryCnt (message run) = RetryCnt msg /\
  FirstRejectionTime (message run) = FirstRejectionTime msg.
Proof.
  intros J U T run. subst run.
  rewrite (Parse_closed _ _ _ _ _ J U), T. unfold decodedMessage.
  destruct (time.IsZero _); simpl; auto.
Qed.

(** [Parse] panics exactly when the body decodes, the [url] is not empty, and
    the table holds a redelivery history that [getRetryInfo] cannot read: an
    [x-death] that is not a list, or a two-entry list whose second entry is
    not a table, or has a [count] that is not an [int64], or a [time] that is
    neither nil nor a [time.Time]. *)
Theorem Parse_panics_iff (msg : HttpRequestMessage) (d : amqp.Delivery)
    (now : Z) :
  (exists reason, completion (Parse json_Unmarshal msg d now) = Panics reason)
  <->
  exists fields h,
    json_Unmarshal (amqp.Body d) = http.Ok fields /\
    MessageFields.Url fields <> EmptyString /\
    amqp.Headers d = Some h /\
    readableHistory h = false.
Proof.
  split.
  - intros [reason P].
    destruct (json_Unmarshal (amqp.Body d)) as [fields|e0] eqn:J;
      [|unfold Parse in P; rewrite J in P; discriminate P].
    destruct (MessageFields.Url fields) as [|c u] eqn:U;
      [unfold Parse in P; rewrite J, U in P; discriminate P|].
    assert (MessageFields.Url fields <> EmptyString) as N
      by (rewrite U; discriminate).
    rewrite (Parse_decoded_completion _ _ _ _ J N) in P.
    destruct (amqp.Headers d) as [h|]; [|discriminate P].
    exists fields, h. repeat split; [rewrite U; discriminate|].
    destruct (readableHistory h) eqn:H; [|reflexivity].
    apply getRetryInfo_returns_iff in H. destruct H as [r0 G].
    rewrite G in P. discriminate P.
  - intros (fields & h & J & U & T & H).
    rewrite (Parse_decoded_completion _ _ _ _ J U), T.
    destruct (getRetryInfo h) as [r0|reason] eqn:G; [|eauto].
    assert (readableHistory h = true) as H'
      by (apply getRetryInfo_returns_iff; eauto).
    rewrite H in H'. discriminate H'.
Qed.

(** [Parse] never writes the outcome fields: on every path the status
    message, the response body, the error and the drop flag are those of the
    receiver. *)
Theorem Parse_never_writes_outcome (msg : HttpRequestMessage)
    (d : amqp.Delivery) (now : Z) :
  let m := message (Parse json_Unmarshal msg d now) in
  HttpStatusMsg m = HttpStatusMsg msg /\ HttpRespBody m = HttpRespBody msg /\
  HttpErr m = HttpErr msg /\ Drop m = Drop msg.
Proof.
  cbv zeta.
  destruct (json_Unmarshal (amqp.Body d)) as [fields|e0] eqn:J.
  - destruct (MessageFields.Url fields) as [|c u] eqn:U.
    + unfold Parse. rewrite J, U. repeat split.
    + assert (MessageFields.Url fields <> EmptyString) as N
        by (rewrite U; discriminate).
      exact (Parse_outcome_untouched _ msg d now fields J N).
  - unfold Parse. rewrite J. repeat split.
Qed.

(** Parsing a delivery again into the message the first call left changes
    nothing: the same message, the same log, the same end. *)
Theorem Parse_idempotent (msg : HttpRequestMessage) (d : amqp.Delivery)
    (now : Z) :
  Parse json_Unmarshal (message (Parse json_Unmarshal msg d now)) d now
  = Parse json_Unmarshal msg d now.
Proof.
  destruct (json_Unmarshal (amqp.Body d)) as [fields|e0] eqn:J.
  - destruct (MessageFields.Url fields) as [|c u] eqn:U.
    + unfold Parse. rewrite J, U. reflexivity.
    + assert (MessageFields.Url fields <> EmptyString) as N
        by (rewrite U; discriminate).
      rewrite (Parse_closed _ (message _) _ _ _ J N).
      rewrite (Parse_closed _ msg _ _ _ J N).
      destruct (amqp.Headers d) as [h|]; cbv zeta.
      * destruct msg. unfold decodedMessage, createdAt.
        destruct (time.IsZero _), (getRetryInfo h) as [[c0 f]|r];
          cbn -[chosenMessageId acceptedExpiration];
          rewrite acceptedExpiration_idem, chosenMessageId_idem;
          reflexivity.
      * unfold decodedMessage. destruct (time.IsZero _); reflexivity.
  - unfold Parse. rewrite J. reflexivity.
Qed.

(** Two deliveries of one body that both carry an attribute table, with no
    valid [message_id] in it, the first created after 1970 and the second at
    another time, get different Message IDs on fresh messages: the appended
    creation time tells them apart.  (Without a table no identifier is
    computed, and both stay empty.) *)
Theorem Parse_MessageId_distinguishes_times (d1 d2 : amqp.Delivery)
    (now1 now2 : Z) (fields : MessageFields.t) (h1 h2 : amqp.Table) :
  amqp.Body d1 = amqp.Body d2 ->
  json_Unmarshal (amqp.Body d1) = http.Ok fields ->
  MessageFields.Url fields <> EmptyString ->
  amqp.Headers d1 = Some h1 -> amqp.Headers d2 = Some h2 ->
  validMessageId h1 = None -> validMessageId h2 = None ->
  0 < createdAt zeroMessage d1 ->
  createdAt zeroMessage d1 <> createdAt zeroMessage d2 ->
  MessageId (message (Parse json_Unmarshal zeroMessage d1 now1))
  <> MessageId (message (Parse json_Unmarshal zeroMessage d2 now2)).
Proof.
  intros B J1 U T1 T2 V1 V2 P N.
  assert (json_Unmarshal (amqp.Body d2) = http.Ok fields) as J2
    by (rewrite <- B; exact J1).
  rewrite (Parse_table_MessageId _ _ _ _ _ J1 U _ T1), V1.
  rewrite (Parse_table_MessageId _ _ _ _ _ J2 U _ T2), V2.
  simpl. rewrite <- B. apply computedMessageId_inj; assumption.
Qed.

End ParseFurther.

(** * [HttpPost]: the request sent and the outcome recorded *)

(** The header loop, key by key: a key of the request is either untouched,
    and then no header of the message is filed under it, or it holds the
    value of a header of the message filed under it. *)
Lemma sentRequest_invariant (net : http.Stack) (msg : HttpRequestMessage)
    (req : http.Request) :
  let sent := sentRequest net msg req in
  http.Method sent = http.Method req /\ http.URL sent = http.URL req /\
  http.Payload sent = http.Payload req /\
  forall c,
    (http.Header sent !! c = http.Header req !! c /\
     forall key, is_Some (Headers msg !! key) ->
                 http.CanonicalHeaderKey net key <> c) \/
    (exists key val,
       Headers msg !! key = Some val /\
       http.CanonicalHeaderKey net key = c /\
       http.Header sent !! c = Some [val]).
Proof.
  unfold sentRequest.
  apply (map_fold_weak_ind (fun (r : http.Request) (m : gmap string string) =>
    http.Method r = http.Method req /\ http.URL r = http.URL req /\
    http.Payload r = http.Payload req /\
    forall c,
      (http.Header r !! c = http.Header req !! c /\
       forall key, is_Some (m !! key) -> http.CanonicalHeaderKey net key <> c) \/
      (exists key val,
         m !! key = Some val /\ http.CanonicalHeaderKey net key = c /\
         http.Header r !! c = Some [val]))).
  - repeat split. intros c. left. split; [reflexivity|].
    intros key [v E]. rewrite lookup_empty in E. discriminate E.
  - intros i x m r Fresh (M & U & P & H). repeat split; try assumption.
    intros c. simpl.
    destruct (decide (http.CanonicalHeaderKey net i = c)) as [E|N].
    + right. exists i, x. rewrite lookup_insert_eq. split; [reflexivity|].
      split; [exact E|]. rewrite E. apply lookup_insert_eq.
    + rewrite (lookup_insert_ne _ _ _ _ N).
      destruct (H c) as [[K A]|(key & val & K & E & V)].
      * left. split; [exact K|]. intros key [v S].
        destruct (decide (i = key)) as [<-|D]; [exact N|].
        rewrite lookup_insert_ne in S by exact D. apply A. eauto.
      * right. exists key, val. split; [|split; assumption].
        rewrite lookup_insert_ne; [exact K|]. intros <-.
        rewrite Fresh in K. discriminate K.
Qed.

Section DispatchFurther.

Variables (net : http.Stack) (msg : HttpRequestMessage).
Variables (ackCh : list HttpRequestMessage) (timeout : Z).

(** Every header of the message is set on the request under its canonical
    key, with its value alone, provided no other header of the message is
    filed under the same key. *)
Theorem sentRequest_sets_header (req : http.Request) (key val : string) :
  Headers msg !! key = Some val ->
  (forall key', is_Some (Headers msg !! key') ->
                sameHeaderKey net key' key -> key' = key) ->
  http.Header (sentRequest net msg req) !! http.CanonicalHeaderKey net key
  = Some [val].
Proof.
  intros K Uq.
  destruct (sentRequest_invariant net msg req) as (_ & _ & _ & H).
  destruct (H (http.CanonicalHeaderKey net key))
    as [[_ A]|(key' & val' & K' & E & V)].
  - exfalso. apply (A key); [eauto | reflexivity].
  - rewrite V. assert (key' = key) as -> by (apply Uq; [eauto | exact E]).
    rewrite K in K'. now injection K' as ->.
Qed.

(** The loop changes nothing else in the request: the method, the URL and
    the body are those [http.NewRequest] gave, and so is every header under
    a key that no header of the message is filed under. *)
Theorem sentRequest_keeps_request (req : http.Request) :
  let sent := sentRequest net msg req in
  http.Method sent = http.Method req /\ http.URL sent = http.URL req /\
  http.Payload sent = http.Payload req /\
  forall c,
    (forall key, is_Some (Headers msg !! key) ->
                 http.CanonicalHeaderKey net key <> c) ->
    http.Header sent !! c = http.Header req !! c.
Proof.
  destruct (sentRequest_invariant net msg req) as (M & U & P & H).
  cbv zeta. repeat split; try assumption.
  intros c A. destruct (H c) as [[K _]|(key & val & K & E & _)]; [exact K|].
  exfalso. apply (A key); eauto.
Qed.

(** The client's timeout is the number of seconds asked for exactly when
    that number is at most 9223372036 in absolute value; beyond, the
    multiplication by [time.Second] overflows. *)
Theorem sentClient_timeout_exact :
  http.Timeout (sentClient timeout) = timeout * 1000000000 <->
  -9223372036 <= timeout <= 9223372036.
Proof.
  unfold sentClient, time.Seconds, time.wrap64, time.Second. simpl.
  pose proof (Z.mod_pos_bound (timeout * 1000000000 + 2 ^ 63) (2 ^ 64)
                ltac:(lia)) as B.
  split.
  - intros E. lia.
  - intros R. rewrite Z.mod_small; lia.
Qed.

(** The two texts of the outcome, on every path: a construction or transport
    error is reported in [HttpStatusMsg] and the response body is left as it
    was; a response whose body is read is recorded with its status line and
    its body, whatever its status code; a response whose body cannot be read
    leaves [HttpStatusMsg] as it was. *)
Theorem HttpPost_records_texts :
  exists out,
    HttpPost net msg ackCh timeout = ackCh ++ [out] /\
    match http.NewRequest net "POST" (Url msg) (Body msg) with
    | http.Err err =>
        HttpStatusMsg out = "Invalid http request: " +:+ errors.Error err /\
        HttpRespBody out = HttpRespBody msg
    | http.Ok req =>
        match http.Do net (sentClient timeout) (sentRequest net msg req) with
        | http.Err err =>
            HttpStatusMsg out = "Error on http POST: " +:+ errors.Error err /\
            HttpRespBody out = HttpRespBody msg
        | http.Ok resp =>
            match http.ReadAll resp with
            | http.Ok htmlData =>
                HttpStatusMsg out = http.Status resp /\
                HttpRespBody out = htmlData
            | http.Err _ =>
                HttpStatusMsg out = HttpStatusMsg msg /\
                HttpRespBody out
                = "Error encountered when reading POST response body"
            end
        end
    end.
Proof.
  unfold HttpPost, sentClient, sentRequest.
  destruct (http.NewRequest net "POST" (Url msg) (Body msg)) as [req|err].
  2: { eexists. split; [reflexivity|]. split; reflexivity. }
  destruct (http.Do net _ _) as [resp|err].
  2: { eexists. split; [reflexivity|]. split; reflexivity. }
  destruct (_ && _).
  { eexists. split; [reflexivity|].
    destruct (http.ReadAll resp); split; reflexivity. }
  destruct (_ && _); eexists; (split; [reflexivity|]);
    destruct (http.ReadAll resp); split; reflexivity.
Qed.

(** The outcome of a call in one statement, for the theorems below. *)
Lemma HttpPost_outcome :
  exists out,
    HttpPost net msg ackCh timeout = ackCh ++ [out] /\
    sameRequest msg out /\
    (Drop msg = true -> Drop out = true) /\
    (HttpErr msg <> None -> HttpErr out <> None) /\
    (HttpErr msg = None -> Drop msg = false ->
     (disposition out = Accepted <->
      exists req resp,
        http.NewRequest net "POST" (Url msg) (Body msg) = http.Ok req /\
        http.Do net (sentClient timeout) (sentRequest net msg req)
        = http.Ok resp /\
        is2xx (http.StatusCode resp) = true)).
Proof.
  unfold HttpPost, sentClient, sentRequest, sameRequest, is2xx.
  destruct (http.NewRequest net "POST" (Url msg) (Body msg)) as [req|err].
  2: { eexists. split; [reflexivity|]. split; [reflexivity|].
       split; [reflexivity|]. split; [discriminate|].
       intros E D. split; [discriminate|].
       intros (? & ? & [=] & _). }
  destruct (http.Do net _ _) as [resp|err] eqn:DO.
  2: { eexists. split; [reflexivity|]. split; [reflexivity|].
       split; [trivial|]. split; [discriminate|].
       intros E D. unfold disposition. simpl. rewrite D.
       split; [discriminate|].
       intros (? & ? & [= <-] & T & _). rewrite DO in T. discriminate T. }
  rewrite !Z.geb_leb.
  destruct ((400 <=? http.StatusCode resp) && (http.StatusCode resp <=? 499))
    eqn:C4.
  { eexists. split; [reflexivity|].
    split; [destruct (http.ReadAll resp); reflexivity|].
    split; [reflexivity|]. split; [discriminate|].
    intros E D. split; [discriminate|].
    intros (? & ? & [= <-] & T & R). rewrite DO in T.
    injection T as <-. lia. }
  destruct ((200 <=? http.StatusCode resp) && (http.StatusCode resp <=? 299))
    eqn:C2.
  - eexists. split; [reflexivity|].
    split; [destruct (http.ReadAll resp); reflexivity|].
    split; [reflexivity|].
    split; [destruct (http.ReadAll resp); simpl; trivial|].
    intros E D. unfold disposition.
    destruct (http.ReadAll resp); simpl; rewrite E;
      (split; [intros _; eauto | reflexivity]).
  - eexists. split; [reflexivity|].
    split; [destruct (http.ReadAll resp); reflexivity|].
    split; [destruct (http.ReadAll resp); simpl; trivial|].
    split; [discriminate|].
    intros E D. unfold disposition.
    destruct (http.ReadAll resp); simpl; rewrite D;
      (split; [discriminate|]);
      intros (? & ? & [= <-] & T & R); rewrite DO in T;
      injection T as <-; rewrite C2 in R; discriminate R.
Qed.

(** A message whose outcome fields are unset is accepted exactly when the
    request could be built, the server answered, and the status code is in
    200-299: no other path acknowledges a message as delivered. *)
Theorem HttpPost_accepted_iff :
  HttpErr msg = None -> Drop msg = false ->
  exists out,
    HttpPost net msg ackCh timeout = ackCh ++ [out] /\
    (disposition out = Accepted <->
     exists req resp,
       http.NewRequest net "POST" (Url msg) (Body msg) = http.Ok req /\
       http.Do net (sentClient timeout) (sentRequest net msg req)
       = http.Ok resp /\
       is2xx (http.StatusCode resp) = true).
Proof.
  intros E D. destruct HttpPost_outcome as (out & P & _ & _ & _ & A).
  exists out. split; [exact P | exact (A E D)].
Qed.

(** [HttpPost] never resets an outcome: a message that enters with [Drop]
    set leaves with [Drop] set, and one that enters with an error leaves with
    an error.  A message that was dropped with an error is therefore sent as
    dropped again, whatever the server answers. *)
Theorem HttpPost_never_resets :
  Drop msg = true ->
  exists out,
    HttpPost net msg ackCh timeout = ackCh ++ [out] /\
    Drop out = true /\
    (HttpErr msg <> None -> disposition out = Dropped).
Proof.
  intros D. destruct HttpPost_outcome as (out & P & _ & K & E & _).
  exists out. split; [exact P|]. split; [exact (K D)|].
  intros N. unfold disposition. rewrite (K D).
  destruct (HttpErr out) eqn:O; [reflexivity|]. now apply E in N.
Qed.

End DispatchFurther.

(** * From the delivery to the outcome *)

(** A delivery parsed into a fresh message and dispatched: the request is
    built from the decoded [url] and [body], the message sent carries what
    [Parse] found (the Message ID, the retry fields, the flattened headers),
    and it is accepted exactly when the server answers with a status code in
    200-299. *)
Theorem Parse_then_HttpPost
    (json_Unmarshal : list byte -> http.result MessageFields.t)
    (net : http.Stack) (d : amqp.Delivery) (now : Z)
    (ackCh : list HttpRequestMessage) (timeout : Z) :
  completion (Parse json_Unmarshal zeroMessage d now) = Returns None ->
  let parsed := message (Parse json_Unmarshal zeroMessage d now) in
  exists fields out,
    json_Unmarshal (amqp.Body d) = http.Ok fields /\
    HttpPost net parsed ackCh timeout = ackCh ++ [out] /\
    sameRequest parsed out /\
    Headers out = flattenHeaders (MessageFields.Headers fields) /\
    (disposition out = Accepted <->
     exists req resp,
       http.NewRequest net "POST" (MessageFields.Url fields)
         (MessageFields.Body fields) = http.Ok req /\
       http.Do net (sentClient timeout) (sentRequest net parsed req)
       = http.Ok resp /\
       is2xx (http.StatusCode resp) = true).
Proof.
  intros R parsed.
  destruct (Parse_returns_inv _ _ _ _ R) as (fields & J & U).
  destruct (Parse_fresh_undispatched json_Unmarshal d now)
    as (_ & _ & E & D).
  fold parsed in E, D.
  destruct (HttpPost_outcome net parsed ackCh timeout)
    as (out & P & S & _ & _ & A).
  exists fields, out. split; [exact J|]. split; [exact P|].
  split; [exact S|].
  assert (Url parsed = MessageFields.Url fields /\
          Body parsed = MessageFields.Body fields /\
          Headers parsed = flattenHeaders (MessageFields.Headers fields))
    as (PU & PB & PH).
  { subst parsed. rewrite (Parse_closed _ _ _ _ _ J U). unfold decodedMessage.
    destruct (amqp.Headers d) as [h|]; cbv zeta;
      [destruct (getRetryInfo h) as [[c f]|r]|];
      simpl; destruct (time.IsZero _); simpl; auto. }
  split.
  - rewrite S. simpl. exact PH.
  - rewrite <- PU, <- PB. exact (A E D).
Qed.

(** * The further properties on the sample envelopes *)

(** A delivery whose body is not JSON: the decoder's error comes back and
    the fresh message holds the delivery alone. *)
Lemma Parse_error_leaves_receiver_witness :
  let d := amqp.mkDelivery None EmptyString EmptyString sampleTime
             EmptyString 2 false EmptyString "work"
             (list_byte_of_string "not json") in
  let e := errors.New "invalid character looking for beginning of value" in
  completion (Parse sampleUnmarshal zeroMessage d 1600000000)
  = Returns (Some e) /\
  message (Parse sampleUnmarshal zeroMessage d 1600000000)
  = set_Delivery d zeroMessage /\
  logged (Parse sampleUnmarshal zeroMessage d 1600000000) = [].
Proof.
  intros d e.
  assert (completion (Parse sampleUnmarshal zeroMessage d 1600000000)
          = Returns (Some e)) as R by (vm_compute; reflexivity).
  split; [exact R|].
  exact (Parse_error_leaves_receiver sampleUnmarshal zeroMessage d
           1600000000 e R).
Defined.

Lemma Parse_copies_request_witness :
  let d := sampleDelivery (Some sampleRedelivered) sampleTime in
  let m := message (Parse sampleUnmarshal zeroMessage d 1600000000) in
  Delivery m = d /\ Url m = "http://x/y" /\ Body m = "payload" /\
  Timestamp m = 1500000000.
Proof.
  intros d m.
  assert (completion (Parse sampleUnmarshal zeroMessage d 1600000000)
          = Returns None) as R by (vm_compute; reflexivity).
  destruct (Parse_copies_request sampleUnmarshal zeroMessage d 1600000000 R)
    as (fields & J & D & U & _ & B & T).
  assert (http.Ok sampleFields = http.Ok fields) as [= <-]
    by (rewrite <- J; vm_compute; reflexivity).
  fold m in D, U, B, T. rewrite D, U, B, T. repeat split.
Defined.

(** An expiration at the very second of the parse is accepted. *)
Lemma Parse_expiration_accepted_witness :
  let h : amqp.Table := {[ "expiration" := amqp.VInt64 1600000000 ]} in
  Expiration (message (Parse sampleUnmarshal zeroMessage
                         (sampleDelivery (Some h) sampleTime) 1600000000))
  = 1600000000.
Proof.
  intros h.
  apply (Parse_expiration_accepted sampleUnmarshal zeroMessage
           (sampleDelivery (Some h) sampleTime) 1600000000 sampleFields h
           1600000000).
  - vm_compute; reflexivity.
  - discriminate.
  - reflexivity.
  - vm_compute; reflexivity.
  - lia.
Defined.

(** A past expiration and an empty [message_id]: two warnings, then the
    debug lines. *)
Lemma Parse_logged_witness :
  let h : amqp.Table :=
    {[ "expiration" := amqp.VInt64 1500000000;
       "message_id" := amqp.VString EmptyString ]} in
  let run := Parse sampleUnmarshal zeroMessage
               (sampleDelivery (Some h) sampleTime) 1600000000 in
  logged run
  = [ LogWrite expirationWarning; LogWrite messageIdWarning;
      LogDebugMessage "Message fields:" (message run);
      LogDebugInt "Retry:" 0; LogDebugInt "First Rejection Time:" 0 ].
Proof.
  intros h run.
  assert (completion run = Returns None) as R by (vm_compute; reflexivity).
  subst run.
  rewrite (Parse_logged sampleUnmarshal zeroMessage
             (sampleDelivery (Some h) sampleTime) 1600000000 h eq_refl R).
  vm_compute. reflexivity.
Defined.

(** A message that parsed a redelivered delivery and then parses one with an
    empty table keeps the identifier of the first. *)
Lemma Parse_keeps_receiver_MessageId_witness :
  let first :=
    message (Parse sampleUnmarshal zeroMessage
               (sampleDelivery (Some sampleRedelivered) sampleTime)
               1600000000) in
  MessageId first = "order-1" /\
  MessageId (message (Parse sampleUnmarshal first
                        (sampleDelivery (Some ∅) sampleTime) 1600000000))
  = "order-1".
Proof.
  intros first.
  assert (MessageId first = "order-1") as F by (vm_compute; reflexivity).
  split; [exact F|].
  rewrite (Parse_keeps_receiver_MessageId sampleUnmarshal first
             (sampleDelivery (Some ∅) sampleTime) 1600000000 sampleFields ∅).
  - exact F.
  - vm_compute; reflexivity.
  - discriminate.
  - reflexivity.
  - vm_compute; reflexivity.
  - rewrite F. discriminate.
Defined.

(** The same message parsing a delivery without a table: it now describes
    the new delivery with the identifier, the expiration and the retry
    history of the old one. *)
Lemma Parse_without_table_keeps_receiver_witness :
  let first :=
    message (Parse sampleUnmarshal zeroMessage
               (sampleDelivery (Some sampleRedelivered) sampleTime)
               1600000000) in
  let run := Parse sampleUnmarshal first
               (sampleDelivery None time.zero) 1600000000 in
  completion run = Returns None /\
  MessageId (message run) = "order-1" /\
  Expiration (message run) = 1700000000 /\
  RetryCnt (message run) = 3 /\
  FirstRejectionTime (message run) = 1500000000.
Proof.
  intros first run.
  destruct (Parse_without_table_keeps_receiver sampleUnmarshal first
              (sampleDelivery None time.zero) 1600000000 sampleFields)
    as (C & I & X & R & F).
  - vm_compute; reflexivity.
  - discriminate.
  - reflexivity.
  - fold run in C, I, X, R, F. rewrite C, I, X, R, F.
    vm_compute. repeat split.
Defined.

(** The sample body created at two consecutive seconds. *)
Lemma Parse_MessageId_distinguishes_times_witness :
  MessageId (message (Parse sampleUnmarshal zeroMessage
                        (sampleDelivery (Some ∅) sampleTime) 1600000000))
  <> MessageId (message (Parse sampleUnmarshal zeroMessage
                           (sampleDelivery (Some ∅)
                              (time.FromUnix 1500000001 0)) 1600000000)).
Proof.
  apply (Parse_MessageId_distinguishes_times sampleUnmarshal
           (sampleDelivery (Some ∅) sampleTime)
           (sampleDelivery (Some ∅) (time.FromUnix 1500000001 0))
           1600000000 1600000000 sampleFields ∅ ∅).
  - reflexivity.
  - vm_compute; reflexivity.
  - discriminate.
  - reflexivity.
  - reflexivity.
  - vm_compute; reflexivity.
  - vm_compute; reflexivity.
  - vm_compute; reflexivity.
  - vm_compute. discriminate.
Defined.

Lemma sentRequest_sets_header_witness :
  http.Header
    (sentRequest sampleStack sampleWithHeaders
       (http.mkRequest "POST" "http://x/y" "payload" ∅)) !! "X-Trace"
  = Some ["7"].
Proof.
  apply (sentRequest_sets_header sampleStack sampleWithHeaders
           (http.mkRequest "POST" "http://x/y" "payload" ∅) "X-Trace" "7").
  - vm_compute; reflexivity.
  - intros key' _ E. exact E.
Defined.

Lemma HttpPost_accepted_iff_witness :
  exists out,
    HttpPost sampleStack (sampleMessage "http://x/y") [] 30 = [out] /\
    disposition out = Accepted.
Proof.
  destruct (HttpPost_accepted_iff sampleStack (sampleMessage "http://x/y")
              [] 30 eq_refl eq_refl) as (out & P & A).
  exists out. split; [exact P|]. apply A.
  exists (http.mkRequest "POST" "http://x/y" "payload" ∅),
         (http.mkResponse "201 Created" 201 (http.Ok "done")).
  repeat split.
Defined.

(** A message sent back as dropped by a first attempt (the request could not
    be built) and dispatched again to a server that answers 201. *)
Lemma HttpPost_never_resets_witness :
  let dropped :=
    set_Url "http://x/y"
      (set_Drop true
         (set_HttpErr (Some (errors.New "invalid character in host name"))
            (sampleMessage "http://x /y"))) in
  exists out,
    HttpPost sampleStack dropped [] 30 = [out] /\
    HttpStatusMsg out = "201 Created" /\
    Drop out = true /\ disposition out = Dropped.
Proof.
  intros dropped.
  destruct (HttpPost_never_resets sampleStack dropped [] 30 eq_refl)
    as (out & P & D & O).
  exists out. split; [exact P|].
  split; [vm_compute in P; injection P as <-; reflexivity|].
  split; [exact D|]. apply O. discriminate.
Defined.

(** The sample delivery, parsed and dispatched to the sample server. *)
Lemma Parse_then_HttpPost_witness :
  let d := sampleDelivery (Some ∅) sampleTime in
  let parsed := message (Parse sampleUnmarshal zeroMessage d 1600000000) in
  exists out,
    HttpPost sampleStack parsed [] 30 = [out] /\
    MessageId out = "a0996e9a0b8bd5830dc1550afd914ffd-1500000000" /\
    Headers out !! "A" = Some "2" /\
    disposition out = Accepted.
Proof.
  intros d parsed.
  assert (completion (Parse sampleUnmarshal zeroMessage d 1600000000)
          = Returns None) as R by (vm_compute; reflexivity).
  destruct (Parse_then_HttpPost sampleUnmarshal sampleStack d 1600000000
              [] 30 R) as (fields & out & J & P & S & H & A).
  assert (http.Ok sampleFields = http.Ok fields) as [= <-]
    by (rewrite <- J; vm_compute; reflexivity).
  fold parsed in P, S, A.
  exists out. split; [exact P|].
  split; [rewrite S; vm_compute; reflexivity|].
  split; [rewrite H; vm_compute; reflexivity|].
  apply A.
  exists (http.mkRequest "POST" "http://x/y" "payload" ∅),
         (http.mkResponse "201 Created" 201 (http.Ok "done")).
  split; [reflexivity|]. split; [vm_compute; reflexivity | reflexivity].
Defined.

(** * [HttpPost] and the caller's message *)

Section Frames.

Variables (vs : list HttpRequestMessage) (a : nat).
Hypothesis valid : (a < length vs)%nat.

Lemma load_at (x : HttpRequestMessage) (ch : list HttpRequestMessage) :
  load a (mkMemory (<[a := x]> vs) ch) = (x, mkMemory (<[a := x]> vs) ch).
Proof. unfold load. simpl. now rewrite list_lookup_insert_eq. Qed.

Lemma assign_at (f : HttpRequestMessage -> HttpRequestMessage)
    (x : HttpRequestMessage) (ch : list HttpRequestMessage) :
  assign a f (mkMemory (<[a := x]> vs) ch)
  = (tt, mkMemory (<[a := f x]> vs) ch).
Proof.
  unfold assign. simpl. f_equal. f_equal.
  apply list_eq. intros i. rewrite list_lookup_alter. case_decide.
  - subst i. now rewrite !list_lookup_insert_eq by assumption.
  - now rewrite !list_lookup_insert_ne by assumption.
Qed.

Lemma send_at (x : HttpRequestMessage) (ch : list HttpRequestMessage) :
  send a (mkMemory (<[a := x]> vs) ch)
  = (tt, mkMemory (<[a := x]> vs) (ch ++ [x])).
Proof. unfold send. simpl. now rewrite list_lookup_insert_eq. Qed.

(** Run on the variable at [a], the body leaves there the message it sends,
    which is the one the function [HttpPost] appends to the channel; no
    other variable is written. *)
Lemma HttpPostBody_run (net : http.Stack) (timeout : Z)
    (msg : HttpRequestMessage) (ch : list HttpRequestMessage) :
  exists out,
    HttpPost net msg ch timeout = ch ++ [out] /\
    HttpPostBody net a timeout (mkMemory (<[a := msg]> vs) ch)
    = (tt, mkMemory (<[a := out]> vs) (ch ++ [out])).
Proof.
  unfold HttpPostBody, HttpPost, mbind, Action_bind.
  rewrite load_at.
  destruct (http.NewRequest net "POST" (Url msg) (Body msg)) as [req|err].
  2: { eexists. split; [reflexivity|].
       now rewrite !assign_at, send_at. }
  destruct (http.Do net _ _) as [resp|err].
  2: { eexists. split; [reflexivity|].
       now rewrite !assign_at, send_at. }
  destruct (http.ReadAll resp); rewrite !assign_at;
    destruct (_ && _);
    try (eexists; split; [reflexivity|];
         now rewrite !assign_at, send_at);
    destruct (_ && _);
    eexists; (split; [reflexivity|]);
    now rewrite !assign_at, send_at.
Qed.

End Frames.

(** C9.  [HttpPost] has a value receiver, so a call never changes the
    caller's message: after [msg.HttpPost(ackCh, timeout)] the variable the
    caller holds, and every other variable, has the value it had before the
    call.  The outcome fields are assigned on the callee's copy only, and
    that copy is what is delivered on the channel: it is the caller's message
    with other values for [HttpStatusMsg], [HttpRespBody], [HttpErr] and
    [Drop]. *)
Theorem HttpPost_leaves_caller_unchanged (net : http.Stack) (s : Memory)
    (caller : nat) (msg : HttpRequestMessage) (timeout : Z) :
  variables s !! caller = Some msg ->
  let s' := snd (callHttpPost net caller timeout s) in
  variables s' !! caller = Some msg /\
  variables s' = variables s /\
  exists out,
    channel s' = channel s ++ [out] /\
    HttpPost net msg (channel s) timeout = channel s ++ [out] /\
    sameRequest msg out.
Proof.
  intros L. destruct s as [vs ch]. simpl in L.
  unfold callHttpPost, callByValue. simpl. rewrite L. simpl.
  assert (length vs < length (vs ++ [msg]))%nat as V
    by (rewrite length_app; simpl; lia).
  destruct (HttpPostBody_run (vs ++ [msg]) (length vs) V net timeout msg ch)
    as (out & P & R).
  assert (forall x, <[length vs := x]> (vs ++ [msg]) = vs ++ [x]) as I.
  { intros x. rewrite insert_app_r_alt by lia.
    now rewrite Nat.sub_diag. }
  rewrite !I in R. rewrite R. simpl.
  rewrite take_app_length.
  split; [exact L|]. split; [reflexivity|].
  exists out. split; [reflexivity|]. split; [exact P|].
  destruct (HttpPost_outcome net msg ch timeout) as (out' & P' & S & _).
  rewrite P in P'. apply app_inv_head in P'. injection P' as <-. exact S.
Qed.

(** The caller holds two messages; the second is dispatched to the sample
    server, which answers 201.  Both variables are as before, and the
    message on the channel is a copy with the outcome. *)
Lemma HttpPost_leaves_caller_unchanged_witness :
  let held := [sampleMessage "http://down/"; sampleMessage "http://x/y"] in
  let s' := snd (callHttpPost sampleStack 1 30 (mkMemory held [])) in
  variables s' !! 1%nat = Some (sampleMessage "http://x/y") /\
  variables s' = held /\
  exists out,
    channel s' = [out] /\
    HttpStatusMsg out = "201 Created" /\ Drop out = true /\
    sameRequest (sampleMessage "http://x/y") out.
Proof.
  intros held s'.
  destruct (HttpPost_leaves_caller_unchanged sampleStack (mkMemory held [])
              1 (sampleMessage "http://x/y") 30 eq_refl)
    as (C & A & out & E & P & S).
  fold s' in C, A, E.
  split; [exact C|]. split; [exact A|].
  exists out. split; [exact E|].
  vm_compute in P. injection P as <-.
  split; [reflexivity|]. split; [reflexivity|]. exact S.
Defined.

(** The difference the receiver makes: the same body run on the caller's
    own variable, as a method with a pointer receiver is, leaves the outcome
    in the caller's message. *)
Example HttpPostBody_by_pointer_changes_caller :
  let held := [sampleMessage "http://x/y"] in
  let s' := snd (callByPointer 0
                   (fun self => HttpPostBody sampleStack self 30)
                   (mkMemory held [])) in
  variables s' <> held /\
  (HttpStatusMsg <$> variables s' !! 0%nat) = Some "201 Created" /\
  (Drop <$> variables s' !! 0%nat) = Some true.
Proof. vm_compute. repeat split. discriminate. Qed.
